(** * A todo service over a document store, with its metrics registry

    Shallow embedding of [src/main.py]: the FastAPI routes of the todo
    application, the MongoDB collection they act on, and the Prometheus
    registry they write to.

    - Python dictionaries (request bodies after [.dict()], MongoDB
      documents, JSON responses) are finite maps from field names to values.
    - Handlers are computations in a state-and-exception monad over a
      [World]: the collection, the metrics registry, the log of storage
      calls issued so far and the number of clock reads.  Python exceptions
      are values of [exn]; a [try]/[except] statement is [try_except], and
      mutations made before an exception is raised persist.
    - What the program cannot control is an [Env]: which storage calls
      raise, which identifiers the driver generates, what the clock reads. *)

From Stdlib Require Import Ascii QArith.
From stdpp Require Import base decidable option list strings gmap fin_maps pretty.

Local Open Scope string_scope.
Local Open Scope list_scope.
Local Open Scope nat_scope.

(** ** Values and documents *)

(** [bson.objectid.ObjectId]: the bytes of the identifier, held here as
    the lowercase hexadecimal digits that [str] prints.  An identifier
    that the driver generates has twelve bytes, 24 digits. *)
Inductive ObjectId := Oid (hex : string).

Definition oid_str (o : ObjectId) : string := let 'Oid h := o in h.

#[global] Instance ObjectId_eq_dec : EqDecision ObjectId.
Proof. solve_decision. Defined.

(** The Python values that occur as fields of a document or of a body. *)
Inductive value :=
| VNone
| VBool (b : bool)
| VStr (s : string)
| VOid (o : ObjectId).

#[global] Instance value_eq_dec : EqDecision value.
Proof. solve_decision. Defined.

(** A Python [dict] with string keys. *)
Abbreviation dict := (gmap string value).

(** Truth value of a Python object in a condition. *)
Definition truthy (v : value) : bool :=
  match v with
  | VNone => false
  | VBool b => b
  | VStr s => negb (String.eqb s "")
  | VOid _ => true
  end.

(** [str(v)]. *)
Definition py_str (v : value) : string :=
  match v with
  | VNone => "None"
  | VBool true => "True"
  | VBool false => "False"
  | VStr s => s
  | VOid o => oid_str o
  end.

(** [d.get(k, dflt)]. *)
Definition dict_get (d : dict) (k : string) (dflt : value) : value :=
  default dflt (d !! k).

(** ** Exceptions *)

Inductive exn :=
| PyMongoError (message : string)
| InvalidId (oid : string)
| KeyError (key : string)
| TypeError
| HTTPException (status_code : nat) (detail : string).

(** [isinstance(e, PyMongoError)].  Every [exn] is an [Exception]; in
    particular [HTTPException] is one. *)
Definition is_PyMongoError (e : exn) : bool :=
  match e with PyMongoError _ => true | _ => false end.

(** ** Identifiers *)

Definition is_hex_digit (c : ascii) : bool :=
  let n := nat_of_ascii c in
  (48 <=? n) && (n <=? 57) || (65 <=? n) && (n <=? 70) || (97 <=? n) && (n <=? 102).

Definition lower_hex (c : ascii) : ascii :=
  let n := nat_of_ascii c in
  if (65 <=? n) && (n <=? 70) then ascii_of_nat (n + 32) else c.

Fixpoint string_forallb (p : ascii -> bool) (s : string) : bool :=
  match s with
  | EmptyString => true
  | String c s' => p c && string_forallb p s'
  end.

Fixpoint string_map (f : ascii -> ascii) (s : string) : string :=
  match s with
  | EmptyString => EmptyString
  | String c s' => String (f c) (string_map f s')
  end.

(** [Py_ISSPACE]: the ASCII whitespace, that is the space and the
    characters [\t], [\n], [\v], [\f] and [\r]. *)
Definition is_space (c : ascii) : bool :=
  let n := nat_of_ascii c in
  (n =? 32) || (9 <=? n) && (n <=? 13).

(** [bytes.fromhex(s)], the bytes held as the lowercase hexadecimal digits
    that [hex()] prints, or [None] for [ValueError].  Whitespace is skipped
    before a byte; a byte is two hexadecimal digits next to each other.  A
    character of a [string] stands for the code point of its number, so
    that one of 128 or more is neither whitespace nor a digit. *)
Fixpoint fromhex (s : string) : option string :=
  match s with
  | EmptyString => Some EmptyString
  | String c s' =>
      if is_space c then fromhex s'
      else if is_hex_digit c then
        match s' with
        | String d s'' =>
            if is_hex_digit d then
              match fromhex s'' with
              | Some h => Some (String (lower_hex c) (String (lower_hex d) h))
              | None => None
              end
            else None
        | EmptyString => None
        end
      else None
  end.

(** [ObjectId(s)] for a [str]: the constructor of [bson] checks
    [len(s) == 24] and hands [s] to [bytes.fromhex]; it raises [InvalidId]
    when either fails.  The bytes are not counted: a string of 24
    characters in which whitespace stands between the bytes gives an
    identifier of fewer than twelve bytes. *)
Definition ObjectId_of (s : string) : exn + ObjectId :=
  if String.length s =? 24 then
    match fromhex s with
    | Some h => inr (Oid h)
    | None => inl (InvalidId s)
    end
  else inl (InvalidId s).

(** A well-formed identifier: a string that [ObjectId] accepts. *)
Definition well_formed_id (s : string) : bool :=
  (String.length s =? 24) &&
  match fromhex s with Some _ => true | None => false end.

(** The identifier format in the words of the specification, a
    fixed-length hex string: 24 hexadecimal digits. *)
Definition fixed_length_hex (s : string) : bool :=
  (String.length s =? 24) && string_forallb is_hex_digit s.

(** ** The collection *)

(** The [todos] collection of the [todo-app] database, in insertion order. *)
Abbreviation collection := (list dict).

(** A document matches the filter [{"_id": v}]. *)
Definition has_id (v : value) (d : dict) : bool :=
  bool_decide (d !! "_id" = Some v).

(** A document matches the filter [{"completed": False}]. *)
Definition is_active (d : dict) : bool :=
  bool_decide (d !! "completed" = Some (VBool false)).

Fixpoint coll_find_one (v : value) (c : collection) : option dict :=
  match c with
  | [] => None
  | d :: c' => if has_id v d then Some d else coll_find_one v c'
  end.

(** [$set]: the fields of [upd] replace those of the first match. *)
Fixpoint coll_update_one (v : value) (upd : dict) (c : collection) : collection :=
  match c with
  | [] => []
  | d :: c' => if has_id v d then (upd ∪ d) :: c' else d :: coll_update_one v upd c'
  end.

Fixpoint coll_delete_one (v : value) (c : collection) : collection :=
  match c with
  | [] => []
  | d :: c' => if has_id v d then c' else d :: coll_delete_one v c'
  end.

Definition coll_count_active (c : collection) : nat :=
  length (List.filter is_active c).

(** ** The metrics registry *)

(** Seconds, as read from the clock and as observed by a histogram (the
    floats of the source, taken as rationals). *)
Abbreviation seconds := Q.

(** The process-wide Prometheus metrics of the module.  A metric with
    label names holds one child per tuple of label values, created by the
    first [.labels(...)] call that names it. *)
Record Registry := {
  http_request_duration : gmap (list string) (list seconds);
  todos_created : nat;
  todos_deleted : nat;
  todos_completed : nat;
  active_todos : nat;
  db_errors : gmap string nat;
  mongo_connections : nat
}.

Definition empty_registry : Registry :=
  {| http_request_duration := ∅; todos_created := 0; todos_deleted := 0;
     todos_completed := 0; active_todos := 0; db_errors := ∅;
     mongo_connections := 0 |}.

(** [http_request_duration.labels(...).observe(x)] *)
Definition observe_duration (labels : list string) (x : seconds) (r : Registry) : Registry :=
  {| http_request_duration :=
       <[labels := default [] (http_request_duration r !! labels) ++ [x]]>
         (http_request_duration r);
     todos_created := todos_created r; todos_deleted := todos_deleted r;
     todos_completed := todos_completed r; active_todos := active_todos r;
     db_errors := db_errors r; mongo_connections := mongo_connections r |}.

(** [todos_created.inc()] *)
Definition inc_todos_created (r : Registry) : Registry :=
  {| http_request_duration := http_request_duration r;
     todos_created := S (todos_created r); todos_deleted := todos_deleted r;
     todos_completed := todos_completed r; active_todos := active_todos r;
     db_errors := db_errors r; mongo_connections := mongo_connections r |}.

(** [todos_deleted.inc()] *)
Definition inc_todos_deleted (r : Registry) : Registry :=
  {| http_request_duration := http_request_duration r;
     todos_created := todos_created r; todos_deleted := S (todos_deleted r);
     todos_completed := todos_completed r; active_todos := active_todos r;
     db_errors := db_errors r; mongo_connections := mongo_connections r |}.

(** [todos_completed.inc()] *)
Definition inc_todos_completed (r : Registry) : Registry :=
  {| http_request_duration := http_request_duration r;
     todos_created := todos_created r; todos_deleted := todos_deleted r;
     todos_completed := S (todos_completed r); active_todos := active_todos r;
     db_errors := db_errors r; mongo_connections := mongo_connections r |}.

(** [active_todos.set(n)] *)
Definition set_active_todos (n : nat) (r : Registry) : Registry :=
  {| http_request_duration := http_request_duration r;
     todos_created := todos_created r; todos_deleted := todos_deleted r;
     todos_completed := todos_completed r; active_todos := n;
     db_errors := db_errors r; mongo_connections := mongo_connections r |}.

(** The value of the child [db_errors{operation=op}]; a child that was
    never created has no sample, read here as 0. *)
Definition db_errors_of (op : string) (r : Registry) : nat :=
  default 0 (db_errors r !! op).

(** [db_errors.labels(operation=op).inc()] *)
Definition inc_db_errors (op : string) (r : Registry) : Registry :=
  {| http_request_duration := http_request_duration r;
     todos_created := todos_created r; todos_deleted := todos_deleted r;
     todos_completed := todos_completed r; active_todos := active_todos r;
     db_errors := <[op := S (db_errors_of op r)]> (db_errors r);
     mongo_connections := mongo_connections r |}.

(** [mongo_connections.set(n)] *)
Definition set_mongo_connections (n : nat) (r : Registry) : Registry :=
  {| http_request_duration := http_request_duration r;
     todos_created := todos_created r; todos_deleted := todos_deleted r;
     todos_completed := todos_completed r; active_todos := active_todos r;
     db_errors := db_errors r; mongo_connections := n |}.

(** ** The world and its environment *)

(** A call made to the storage layer. *)
Inductive StorageCall :=
| Ping
| Find
| FindOne (id : value)
| InsertOne (doc : dict)
| UpdateOne (id : value) (fields : dict)
| DeleteOne (id : value)
| CountDocuments.

(** Everything the handlers read or change. *)
Record World := {
  todos_collection : collection;
  REGISTRY : Registry;
  calls : list StorageCall;
  clock_reads : nat
}.

(** What the handlers do not decide: whether the [n]-th storage call of
    the process raises a [PyMongoError], which identifier the driver
    generates for a document inserted by the [n]-th call, and what the
    [n]-th read of the clock returns. *)
Record Env := {
  fault : nat -> bool;
  new_oid : nat -> ObjectId;
  clock : nat -> seconds
}.

Definition with_collection (c : collection) (w : World) : World :=
  {| todos_collection := c; REGISTRY := REGISTRY w; calls := calls w;
     clock_reads := clock_reads w |}.

Definition with_registry (r : Registry) (w : World) : World :=
  {| todos_collection := todos_collection w; REGISTRY := r; calls := calls w;
     clock_reads := clock_reads w |}.

Definition log_call (c : StorageCall) (w : World) : World :=
  {| todos_collection := todos_collection w; REGISTRY := REGISTRY w;
     calls := calls w ++ [c]; clock_reads := clock_reads w |}.

Definition tick (w : World) : World :=
  {| todos_collection := todos_collection w; REGISTRY := REGISTRY w;
     calls := calls w; clock_reads := S (clock_reads w) |}.

(** ** Computations that may raise *)

Definition M (A : Type) : Type := Env -> World -> (exn + A) * World.

Definition ret {A} (a : A) : M A := fun _ w => (inr a, w).

Definition raise {A} (e : exn) : M A := fun _ w => (inl e, w).

Definition bind {A B} (m : M A) (k : A -> M B) : M B :=
  fun env w =>
    match m env w with
    | (inr a, w') => k a env w'
    | (inl e, w') => (inl e, w')
    end.

(** With these instances [x ← m; k] and [m;; k] sequence computations. *)
#[global] Instance M_ret : MRet M := @ret.
#[global] Instance M_bind : MBind M := fun A B k m => bind m k.
#[global] Instance M_fmap : FMap M := fun A B f m => bind m (fun a => ret (f a)).

(** [try: body except Exception as e: handler e].  The handler runs in
    the world the body left behind. *)
Definition try_except {A} (body : M A) (handler : exn -> M A) : M A :=
  fun env w =>
    match body env w with
    | (inl e, w') => handler e env w'
    | r => r
    end.

(** A pure computation that may raise. *)
Definition lift {A} (r : exn + A) : M A :=
  match r with inl e => raise e | inr a => ret a end.

(** An update of the registry. *)
Definition metric (f : Registry -> Registry) : M unit :=
  fun _ w => (inr tt, with_registry (f (REGISTRY w)) w).

(** [time.time()] *)
Definition time_time : M seconds :=
  fun env w => (inr (clock env (clock_reads w)), tick w).

(** ** The storage layer *)

(** One call to the driver.  The call is logged; it raises when the
    environment says so, and then leaves the collection as it was;
    otherwise [run] gives the result and the new collection, or the error
    the server answers with.  [run] is given the index of the call. *)
Definition storage_call {A} (c : StorageCall)
    (run : nat -> collection -> exn + (A * collection)) : M A :=
  fun env w =>
    let n := length (calls w) in
    let w1 := log_call c w in
    if fault env n then (inl (PyMongoError "network"), w1)
    else match run n (todos_collection w) with
         | inl e => (inl e, w1)
         | inr (a, c') => (inr a, with_collection c' w1)
         end.

(** [client.admin.command("ping")] *)
Definition ping : M unit :=
  storage_call Ping (fun _ c => inr (tt, c)).

(** [todos_collection.find()] *)
Definition find : M collection :=
  storage_call Find (fun _ c => inr (c, c)).

(** [todos_collection.find_one({"_id": v})] *)
Definition find_one (v : value) : M (option dict) :=
  storage_call (FindOne v) (fun _ c => inr (coll_find_one v c, c)).

(** [todos_collection.insert_one(doc)]: the driver gives the document an
    [_id] when it has none; the server refuses an [_id] that is taken
    (DuplicateKeyError, a PyMongoError).  Returns [result.inserted_id]. *)
Definition insert_one (doc : dict) : M value :=
  fun env =>
    storage_call (InsertOne doc)
      (fun n c =>
         let id := dict_get doc "_id" (VOid (new_oid env n)) in
         match coll_find_one id c with
         | Some _ => inl (PyMongoError "duplicate key")
         | None => inr (id, c ++ [<["_id" := id]> doc])
         end) env.

(** [todos_collection.update_one({"_id": v}, {"$set": fields})] *)
Definition update_one (v : value) (fields : dict) : M unit :=
  storage_call (UpdateOne v fields) (fun _ c => inr (tt, coll_update_one v fields c)).

(** [todos_collection.delete_one({"_id": v})]; returns
    [result.deleted_count]. *)
Definition delete_one (v : value) : M nat :=
  storage_call (DeleteOne v)
    (fun _ c => inr (match coll_find_one v c with Some _ => 1 | None => 0 end,
                     coll_delete_one v c)).

(** [todos_collection.count_documents({"completed": False})] *)
Definition count_documents : M nat :=
  storage_call CountDocuments (fun _ c => inr (coll_count_active c, c)).

(** ** Request bodies (the pydantic models) *)

Definition opt_str (o : option string) : value :=
  match o with Some s => VStr s | None => VNone end.

Definition opt_bool (o : option bool) : value :=
  match o with Some b => VBool b | None => VNone end.

Module TodoCreate.

Record t := { title : string; description : option string; completed : bool }.

(** [todo.dict()] *)
Definition dict (todo : t) : gmap string value :=
  <["title" := VStr (title todo)]>
    (<["description" := opt_str (description todo)]>
       (<["completed" := VBool (completed todo)]> ∅)).

End TodoCreate.

Module TodoUpdate.

Record t := { title : option string; description : option string;
              completed : option bool }.

(** [todo_update.dict()] *)
Definition dict (todo_update : t) : gmap string value :=
  <["title" := opt_str (title todo_update)]>
    (<["description" := opt_str (description todo_update)]>
       (<["completed" := opt_bool (completed todo_update)]> ∅)).

End TodoUpdate.

(** [{k: v for k, v in d.items() if v is not None}] *)
Definition without_none (d : dict) : dict :=
  filter (λ kv, kv.2 ≠ VNone) d.

(** ** Helper functions of the module *)

(** What a handler returns: a JSON object, a JSON array of objects, or
    plain text. *)
Inductive content :=
| JObject (d : dict)
| JArray (l : list dict)
| PlainText (s : string).

(** [update_active_todos_count()] *)
Definition update_active_todos_count : M unit :=
  try_except
    (count ← count_documents;
     metric (set_active_todos count))
    (fun e =>
       if is_PyMongoError e then metric (inc_db_errors "count")
       else raise e).

(** [serialize_todo(todo)]; [todo] is what [find_one] returned, a
    document or [None]. *)
Definition serialize_todo (todo : option dict) : exn + dict :=
  match todo with
  | None => inl TypeError
  | Some todo =>
      match todo !! "_id" with
      | None => inl (KeyError "_id")
      | Some id =>
          match todo !! "title" with
          | None => inl (KeyError "title")
          | Some title =>
              inr (<["id" := VStr (py_str id)]>
                   (<["title" := title]>
                    (<["description" := dict_get todo "description" VNone]>
                     (<["completed" := dict_get todo "completed" (VBool false)]>
                      (<["createdAt" :=
                           VStr (py_str (dict_get todo "createdAt" (VStr "")))]> ∅)))))
          end
      end
  end.

(** [[serialize_todo(todo) for todo in todos]] *)
Fixpoint serialize_all (todos : collection) : exn + list dict :=
  match todos with
  | [] => inr []
  | todo :: rest =>
      match serialize_todo (Some todo) with
      | inl e => inl e
      | inr j =>
          match serialize_all rest with
          | inl e => inl e
          | inr js => inr (j :: js)
          end
      end
  end.

(** [track_request_time(method, endpoint, status_code)(func)]: the
    wrapper the decorator returns.  The [status_code] argument is not
    used: the label is 200 when [func] returns and 500 when it raises. *)
Definition track_request_time {A} (method endpoint : string) (status_code : nat)
    (func : M A) : M A :=
  start ← time_time;
  try_except
    (result ← func;
     now ← time_time;
     metric (observe_duration [method; endpoint; "200"] (now - start)%Q);;
     mret result)
    (fun e =>
       now ← time_time;
       metric (observe_duration [method; endpoint; "500"] (now - start)%Q);;
       raise e).

(** ** Exposition of the registry *)

Definition nl : string := String (ascii_of_nat 10) EmptyString.

Definition dq : string := String (ascii_of_nat 34) EmptyString.

(** [s.rstrip(chars)]: [s] without the characters of [chars] it ends in. *)
Fixpoint rstrip (chars : ascii → bool) (s : string) : string :=
  match s with
  | EmptyString => EmptyString
  | String c s' =>
      match rstrip chars s' with
      | EmptyString => if chars c then EmptyString else String c EmptyString
      | r => String c r
      end
  end.

(** [repr(float(n))] for a whole number up to 2^53, the range in which a
    float holds every whole number and [repr] writes all its digits. *)
Definition repr_whole (n : N) : string := pretty n +:+ ".0".

(** [floatToGoString(d)] of [prometheus_client.utils] for a finite [d],
    from [s = repr(d)] and whether [d > 0]: when seven digits or more stand
    before the point, the value is written with a mantissa and an
    exponent, as Go does. *)
Definition floatToGoString (positive : bool) (s : string) : string :=
  match String.index 0 "." s with
  | Some dot =>
      if positive && (6 <? dot) then
        let mantissa :=
          rstrip (λ c, Ascii.eqb c "0" || Ascii.eqb c ".")
            (String.substring 0 1 s +:+ "." +:+ String.substring 1 (dot - 1) s +:+
             String.substring (S dot) (String.length s - S dot) s) in
        mantissa +:+ "e+0" +:+ pretty (dot - 1)
      else s
  | None => s
  end.

(** The text of a sample whose value is a count: a counter is a float
    that starts at zero and grows by one, a gauge is set to [float(n)].  The
    text is the one of the registry as long as the count is at most 2^53. *)
Definition sample_value (n : nat) : string :=
  floatToGoString (0 <? n) (repr_whole (N.of_nat n)).

Definition help_and_type (name doc kind : string) : string :=
  "# HELP " +:+ name +:+ " " +:+ doc +:+ nl +:+
  "# TYPE " +:+ name +:+ " " +:+ kind +:+ nl.

Definition label (k v : string) : string := k +:+ "=" +:+ dq +:+ v +:+ dq.

(** The upper bounds of the histogram buckets, with the text of their
    [le] label. *)
Definition buckets : list (string * option seconds) :=
  [("0.1", Some (1 # 10)%Q); ("0.5", Some (1 # 2)%Q); ("1.0", Some 1%Q);
   ("2.0", Some 2%Q); ("5.0", Some 5%Q); ("+Inf", None)].

Definition in_bucket (bound : option seconds) (x : seconds) : bool :=
  match bound with Some b => Qle_bool x b | None => true end.

(** The label values of a child of [http_request_duration]. *)
Definition duration_labels (lv : list string) (le : option string) : string :=
  match lv with
  | [method; endpoint; status_code] =>
      "{" +:+ label "endpoint" endpoint +:+ "," +:+
      match le with Some b => label "le" b +:+ "," | None => "" end +:+
      label "method" method +:+ "," +:+ label "status_code" status_code +:+ "}"
  | _ => ""
  end.

(** The bucket and count samples of one child of the histogram. *)
Definition duration_samples (child : list string * list seconds) : string :=
  let '(lv, obs) := child in
  String.concat ""
    (map (λ b : string * option seconds,
            "http_request_duration_seconds_bucket" +:+
            duration_labels lv (Some b.1) +:+ " " +:+
            sample_value (length (List.filter (in_bucket b.2) obs)) +:+ nl)
         buckets) +:+
  "http_request_duration_seconds_count" +:+ duration_labels lv None +:+ " " +:+
  sample_value (length obs) +:+ nl.

Definition db_errors_sample (child : string * nat) : string :=
  "db_errors_total{" +:+ label "operation" child.1 +:+ "} " +:+
  sample_value child.2 +:+ nl.

(** [generate_latest(REGISTRY)], for the metrics this module registers,
    in the order it registers them.  A metric with labels has samples only
    for the children that exist.  Left out: the collectors the client
    library registers by itself, and the [_sum] and [_created] samples,
    whose values are floating-point renderings of times. *)
Definition generate_latest (r : Registry) : string :=
  help_and_type "http_request_duration_seconds"
    "Duration of HTTP requests in seconds" "histogram" +:+
  String.concat "" (map duration_samples (map_to_list (http_request_duration r))) +:+
  help_and_type "todos_created_total" "Total number of todos created" "counter" +:+
  "todos_created_total " +:+ sample_value (todos_created r) +:+ nl +:+
  help_and_type "todos_deleted_total" "Total number of todos deleted" "counter" +:+
  "todos_deleted_total " +:+ sample_value (todos_deleted r) +:+ nl +:+
  help_and_type "todos_completed_total"
    "Total number of todos marked as completed" "counter" +:+
  "todos_completed_total " +:+ sample_value (todos_completed r) +:+ nl +:+
  help_and_type "active_todos_count"
    "Current number of active (incomplete) todos" "gauge" +:+
  "active_todos_count " +:+ sample_value (active_todos r) +:+ nl +:+
  help_and_type "db_errors_total" "Total number of database errors" "counter" +:+
  String.concat "" (map db_errors_sample (map_to_list (db_errors r))) +:+
  help_and_type "mongo_connections_active"
    "MongoDB connection status (1=connected, 0=disconnected)" "gauge" +:+
  "mongo_connections_active " +:+ sample_value (mongo_connections r) +:+ nl.

(** The number of observations the histogram holds, over all children. *)
Definition observations (r : Registry) : nat :=
  length (concat (map snd (map_to_list (http_request_duration r)))).

(** ** Routes *)

(** [GET /health] *)
Definition health_check : M content :=
  mret (JObject {["status" := VStr "ok"]}).

(** [GET /live] *)
Definition live : M content :=
  mret (JObject {["status" := VStr "alive"]}).

(** [GET /ready] *)
Definition ready : M content :=
  try_except
    (ping;;
     mret (JObject {["status" := VStr "ready"]}))
    (fun _ => raise (HTTPException 503 "MongoDB not ready")).

(** [GET /metrics] *)
Definition metrics : M content :=
  fun _ w => (inr (PlainText (generate_latest (REGISTRY w))), w).

(** [GET /todos] *)
Definition get_todos : M content :=
  try_except
    (todos ← find;
     JArray <$> lift (serialize_all todos))
    (fun e =>
       if is_PyMongoError e then
         metric (inc_db_errors "find");;
         raise (HTTPException 500 "Failed to fetch todos")
       else raise e).

(** [POST /todos] *)
Definition create_todo (todo : TodoCreate.t) : M content :=
  try_except
    (let todo_dict := <["completed" := VBool false]> (TodoCreate.dict todo) in
     inserted_id ← insert_one todo_dict;
     metric inc_todos_created;;
     update_active_todos_count;;
     created_todo ← find_one inserted_id;
     JObject <$> lift (serialize_todo created_todo))
    (fun e =>
       if is_PyMongoError e then
         metric (inc_db_errors "create");;
         raise (HTTPException 500 "Failed to create todo")
       else raise e).

(** [PUT /todos/{todo_id}].  A document found by its [_id] is not the
    empty dictionary, so [not existing_todo] is the test for [None]. *)
Definition update_todo (todo_id : string) (todo_update : TodoUpdate.t) : M content :=
  try_except
    (oid ← lift (ObjectId_of todo_id);
     existing_todo ← find_one (VOid oid);
     match existing_todo with
     | None => raise (HTTPException 404 "Todo not found")
     | Some existing =>
         let update_dict := without_none (TodoUpdate.dict todo_update) in
         if bool_decide (update_dict = ∅) then
           JObject <$> lift (serialize_todo existing_todo)
         else
           (if truthy (dict_get update_dict "completed" VNone)
               && negb (truthy (dict_get existing "completed" (VBool false)))
            then metric inc_todos_completed
            else mret tt);;
           oid ← lift (ObjectId_of todo_id);
           update_one (VOid oid) update_dict;;
           oid ← lift (ObjectId_of todo_id);
           updated_todo ← find_one (VOid oid);
           update_active_todos_count;;
           JObject <$> lift (serialize_todo updated_todo)
     end)
    (fun e =>
       if is_PyMongoError e then
         metric (inc_db_errors "update");;
         raise (HTTPException 500 "Failed to update todo")
       else raise (HTTPException 400 "Invalid todo ID")).

(** [DELETE /todos/{todo_id}] *)
Definition delete_todo (todo_id : string) : M content :=
  try_except
    (oid ← lift (ObjectId_of todo_id);
     deleted_count ← delete_one (VOid oid);
     if deleted_count =? 0 then raise (HTTPException 404 "Todo not found")
     else
       metric inc_todos_deleted;;
       update_active_todos_count;;
       mret (JObject {["message" := VStr "Todo deleted"]}))
    (fun e =>
       if is_PyMongoError e then
         metric (inc_db_errors "delete");;
         raise (HTTPException 500 "Failed to delete todo")
       else raise (HTTPException 400 "Invalid todo ID")).

(** ** The application *)

Record Response := { status_code : nat; body : content }.

(** What the framework answers for a route whose success status is
    [success]: the returned content; for an [HTTPException] its status and
    detail; for any other exception a plain 500. *)
Definition http_error (status : nat) (detail : string) : Response :=
  {| status_code := status; body := JObject {["detail" := VStr detail]} |}.

Definition internal_server_error : Response :=
  {| status_code := 500; body := PlainText "Internal Server Error" |}.

Definition respond (success : nat) (handler : M content) (env : Env) (w : World)
    : Response * World :=
  match handler env w with
  | (inr c, w') => ({| status_code := success; body := c |}, w')
  | (inl (HTTPException s d), w') => (http_error s d, w')
  | (inl _, w') => (internal_server_error, w')
  end.

(** A request the application routes, its body already validated. *)
Inductive Request :=
| GET_health
| GET_live
| GET_ready
| GET_metrics
| GET_todos
| POST_todos (todo : TodoCreate.t)
| PUT_todos (todo_id : string) (todo_update : TodoUpdate.t)
| DELETE_todos (todo_id : string).

(** The routing table of [app].  No route is wrapped in
    [track_request_time]. *)
Definition app (r : Request) : Env -> World -> Response * World :=
  match r with
  | GET_health => respond 200 health_check
  | GET_live => respond 200 live
  | GET_ready => respond 200 ready
  | GET_metrics => respond 200 metrics
  | GET_todos => respond 200 get_todos
  | POST_todos todo => respond 201 (create_todo todo)
  | PUT_todos todo_id todo_update => respond 200 (update_todo todo_id todo_update)
  | DELETE_todos todo_id => respond 200 (delete_todo todo_id)
  end.

(** The world after serving the requests one after the other. *)
Definition serve (env : Env) (rs : list Request) (w : World) : World :=
  fold_left (fun w r => (app r env w).2) rs w.

(** The start-up half of [lifespan]: the connection is verified and the
    gauge initialised; a failure is re-raised and the process does not
    start. *)
Definition lifespan_startup : M unit :=
  try_except
    (ping;;
     metric (set_mongo_connections 1);;
     update_active_todos_count)
    (fun e =>
       (if is_PyMongoError e then metric (set_mongo_connections 0) else mret tt);;
       raise e).

(** The shut-down half of [lifespan]. *)
Definition lifespan_shutdown : M unit :=
  metric (set_mongo_connections 0).

(** The world of a process that has not started yet, over a database that
    holds [c]. *)
Definition boot (c : collection) : World :=
  {| todos_collection := c; REGISTRY := empty_registry; calls := [];
     clock_reads := 0 |}.

(** ** Properties spoken of below *)

(** The gauge shows the number of documents whose [completed] is false. *)
Definition gauge_agrees (w : World) : Prop :=
  active_todos (REGISTRY w) = coll_count_active (todos_collection w).

(** No storage call raises. *)
Definition storage_succeeds (env : Env) : Prop :=
  ∀ n, fault env n = false.

(** The create, update and delete requests. *)
Definition is_mutation (r : Request) : bool :=
  match r with
  | POST_todos _ | PUT_todos _ _ | DELETE_todos _ => true
  | _ => false
  end.

(** The status a route answers with when its handler returns. *)
Definition success_status (r : Request) : nat :=
  match r with POST_todos _ => 201 | _ => 200 end.

(** The item's [completed] flag as the update handler reads it:
    [existing_todo.get("completed", False)], taken as a condition. *)
Definition prior_completed (existing : dict) : bool :=
  truthy (dict_get existing "completed" (VBool false)).

(** The body of a PUT supplies at least one field that is not null. *)
Definition supplies_fields (u : TodoUpdate.t) : bool :=
  bool_decide (is_Some (TodoUpdate.title u))
  || bool_decide (is_Some (TodoUpdate.description u))
  || bool_decide (is_Some (TodoUpdate.completed u)).

Definition is_count (c : StorageCall) : bool :=
  match c with CountDocuments => true | _ => false end.

(** Every storage call issued between [w] and [w'] succeeded, except the
    count queries, which raised. *)
Definition only_count_fails (env : Env) (w w' : World) : Prop :=
  ∀ i c, length (calls w) ≤ i → calls w' !! i = Some c →
         fault env i = is_count c.

(** Between [w] and [w'] a count query was issued, and unless it raised
    the gauge shows its result. *)
Definition recounts (env : Env) (w w' : World) : Prop :=
  ∃ i, length (calls w) ≤ i ∧ calls w' !! i = Some CountDocuments ∧
       (fault env i = false → gauge_agrees w').

(** [p in s], on text. *)
Fixpoint starts_with (p s : string) : bool :=
  match p, s with
  | EmptyString, _ => true
  | String a p', String b s' => Ascii.eqb a b && starts_with p' s'
  | String _ _, EmptyString => false
  end.

Fixpoint contains (p s : string) : bool :=
  starts_with p s ||
  match s with
  | EmptyString => false
  | String _ s' => contains p s'
  end.

(** The JSON object of a 200 answer. *)
Definition ok (j : dict) : Response := {| status_code := 200; body := JObject j |}.

(** What [create_todo] returns for the document it has inserted. *)
Definition created_json (id : value) (todo : TodoCreate.t) : dict :=
  <["id" := VStr (py_str id)]>
    (<["title" := VStr (TodoCreate.title todo)]>
       (<["description" := opt_str (TodoCreate.description todo)]>
          (<["completed" := VBool false]>
             (<["createdAt" := VStr ""]> ∅)))).

(** The request changes the collection when it succeeds. *)
Definition changes_collection (r : Request) : bool :=
  match r with
  | POST_todos _ | DELETE_todos _ => true
  | PUT_todos _ u => supplies_fields u
  | _ => false
  end.

(** When the request succeeds, it has recounted. *)
Definition recounts_on_success (env : Env) (w : World) (r : Request) : Prop :=
  status_code (app r env w).1 = success_status r → recounts env w (app r env w).2.

(** A storage operation of [create_todo] fails: the insert raises, or the
    server refuses the generated identifier, or the read-back raises. *)
Definition create_fails (env : Env) (w : World) : bool :=
  let n := length (calls w) in
  fault env n
  || bool_decide (is_Some (coll_find_one (VOid (new_oid env n)) (todos_collection w)))
  || fault env (S (S n)).

(** The answer to POST is 201 with an item whose [completed] is false. *)
Definition created_uncompleted (env : Env) (w : World) (todo : TodoCreate.t) : Prop :=
  ∃ j, (app (POST_todos todo) env w).1 = {| status_code := 201; body := JObject j |} ∧
       j !! "completed" = Some (VBool false).

(** The request has a document to act on: the identifier generated for a
    new item is free; the item to update exists, the body supplies a field
    and the item has a title afterwards; the item to delete exists. *)
Definition mutation_applies (env : Env) (w : World) (r : Request) : Prop :=
  match r with
  | POST_todos _ =>
      coll_find_one (VOid (new_oid env (length (calls w)))) (todos_collection w) = None
  | PUT_todos todo_id u =>
      ∃ oid existing,
        ObjectId_of todo_id = inr oid ∧
        coll_find_one (VOid oid) (todos_collection w) = Some existing ∧
        supplies_fields u = true ∧
        (is_Some (existing !! "title") ∨ is_Some (TodoUpdate.title u))
  | DELETE_todos todo_id =>
      ∃ oid, ObjectId_of todo_id = inr oid ∧
             is_Some (coll_find_one (VOid oid) (todos_collection w))
  | _ => False
  end.

(** [only_count_fails], checked call by call from index [i] on. *)
Fixpoint faults_match (env : Env) (i : nat) (cs : list StorageCall) : bool :=
  match cs with
  | [] => true
  | c :: cs' => Bool.eqb (fault env i) (is_count c) && faults_match env (S i) cs'
  end.

(** ** Sample data *)

Module Sample.

(** [s], padded with zeros on the left to 24 characters. *)
Definition pad24 (s : string) : string :=
  String.concat "" (replicate (24 - String.length s) "0") +:+ s.

(** An environment in which nothing fails; the driver numbers its
    identifiers by the index of the call. *)
Definition env : Env :=
  {| fault := fun _ => false;
     new_oid := fun n => Oid (pad24 (pretty n));
     clock := fun n => (Z.of_nat n # 1)%Q |}.

(** The same, but the [k]-th storage call raises. *)
Definition failing (k : nat) : Env :=
  {| fault := fun n => n =? k; new_oid := new_oid env; clock := clock env |}.

Definition todo1 : TodoCreate.t :=
  {| TodoCreate.title := "Todo 1"; TodoCreate.description := None;
     TodoCreate.completed := true |}.

Definition todo2 : TodoCreate.t :=
  {| TodoCreate.title := "Todo 2"; TodoCreate.description := Some "second";
     TodoCreate.completed := false |}.

Definition nothing : TodoUpdate.t :=
  {| TodoUpdate.title := None; TodoUpdate.description := None;
     TodoUpdate.completed := None |}.

Definition complete : TodoUpdate.t :=
  {| TodoUpdate.title := None; TodoUpdate.description := None;
     TodoUpdate.completed := Some true |}.

Definition rename : TodoUpdate.t :=
  {| TodoUpdate.title := Some "Updated"; TodoUpdate.description := None;
     TodoUpdate.completed := None |}.

(** A started process over an empty database. *)
Definition started : World := (lifespan_startup env (boot [])).2.

(** After two items were created; their identifiers end in 2 and 5. *)
Definition two_todos : World :=
  serve env [POST_todos todo1; POST_todos todo2] started.

Definition id1 : string := "000000000000000000000002".
Definition id2 : string := "000000000000000000000005".
Definition absent_id : string := "123456789012345678901234".


End Sample.

(** ** Further notions *)

(** The [_id] fields of the documents, in order. *)
Definition ids (c : collection) : list (option value) :=
  map (λ d : dict, d !! "_id") c.

(** A document as the application writes them: it has an [_id], its
    [title] is text and its [completed] is a boolean. *)
Definition valid_item (d : dict) : bool :=
  match d !! "_id", d !! "title", d !! "completed" with
  | Some _, Some (VStr _), Some (VBool _) => true
  | _, _, _ => false
  end.

(** No two documents share an [_id], and every document is valid. *)
Definition well_kept (c : collection) : Prop :=
  NoDup (ids c) ∧ Forall (λ d, valid_item d = true) c.

(** The label under which a route records its storage errors. *)
Definition operation_label (r : Request) : option string :=
  match r with
  | GET_todos => Some "find"
  | POST_todos _ => Some "create"
  | PUT_todos _ _ => Some "update"
  | DELETE_todos _ => Some "delete"
  | _ => None
  end.

(** The answer of a route whose storage call raised. *)
Definition failure_answer (r : Request) : Response :=
  match r with
  | GET_todos => http_error 500 "Failed to fetch todos"
  | POST_todos _ => http_error 500 "Failed to create todo"
  | PUT_todos _ _ => http_error 500 "Failed to update todo"
  | DELETE_todos _ => http_error 500 "Failed to delete todo"
  | GET_ready => http_error 503 "MongoDB not ready"
  | _ => internal_server_error
  end.

(** The statuses a route can answer with. *)
Definition statuses (r : Request) : list nat :=
  match r with
  | GET_health | GET_live | GET_metrics => [200]
  | GET_ready => [200; 503]
  | GET_todos => [200; 500]
  | POST_todos _ => [201; 500]
  | PUT_todos _ _ | DELETE_todos _ => [200; 400; 500]
  end.

(** The field [k] of an item after a PUT with body [u]. *)
Definition updated_field (u : TodoUpdate.t) (existing : dict) (k : string)
    : option value :=
  if bool_decide (k = "title") then
    match TodoUpdate.title u with Some t => Some (VStr t) | None => existing !! k end
  else if bool_decide (k = "description") then
    match TodoUpdate.description u with
    | Some t => Some (VStr t)
    | None => existing !! k
    end
  else if bool_decide (k = "completed") then
    match TodoUpdate.completed u with Some b => Some (VBool b) | None => existing !! k end
  else existing !! k.

(** One when the document counts as active, else zero. *)
Definition active_of (d : dict) : nat := if is_active d then 1 else 0.

(** Unfolds the sequencing of computations. *)
Ltac unfold_monad :=
  unfold try_except, mbind, M_bind, fmap, M_fmap, mret, M_ret, bind, metric, lift;
  unfold ret, raise.

(** Reads off [H], an instance of [only_count_fails], whether one call
    raised. *)
Ltac use_log H :=
  let E := fresh "E" in
  eassert (E : _ = is_count _);
  [ eapply H; [ cbn; rewrite <- ?app_assoc; reflexivity | reflexivity ]
  | cbn in E ].

(** * Lemmas *)

(** ** Identifiers *)

Lemma ObjectId_of_malformed s :
  well_formed_id s = false → ObjectId_of s = inl (InvalidId s).
Proof.
  unfold well_formed_id, ObjectId_of.
  destruct (String.length s =? 24); [|done].
  by destruct (fromhex s).
Qed.

Lemma ObjectId_of_cases s :
  (well_formed_id s = false ∧ ObjectId_of s = inl (InvalidId s)) ∨
  (well_formed_id s = true ∧ ∃ oid, ObjectId_of s = inr oid).
Proof.
  unfold well_formed_id, ObjectId_of.
  destruct (String.length s =? 24); [|by left].
  destruct (fromhex s); [right|left]; eauto.
Qed.

Lemma hex_digit_is_no_space c : is_hex_digit c = true → is_space c = false.
Proof. destruct c as [[] [] [] [] [] [] [] []]; vm_compute; congruence. Qed.

(** Digits alone, an even number of them, are the bytes they spell. *)
Lemma fromhex_hex_digits n s :
  String.length s = 2 * n → string_forallb is_hex_digit s = true →
  fromhex s = Some (string_map lower_hex s).
Proof.
  revert s. induction n as [|n IH]; intros s Hlen Hhex.
  - by destruct s.
  - destruct s as [|c [|d s]]; [discriminate Hlen|cbn in Hlen; lia|].
    cbn [string_forallb] in Hhex.
    apply andb_true_iff in Hhex as [Hc Hhex].
    apply andb_true_iff in Hhex as [Hd Hhex].
    cbn [fromhex string_map].
    rewrite (hex_digit_is_no_space _ Hc), Hc, Hd.
    rewrite IH; [reflexivity|cbn in Hlen; lia|exact Hhex].
Qed.

(** A fixed-length hex string is a well-formed identifier, and the
    identifier is the string in lower case. *)
Lemma fixed_length_hex_accepted s :
  fixed_length_hex s = true →
  well_formed_id s = true ∧ ObjectId_of s = inr (Oid (string_map lower_hex s)).
Proof.
  unfold fixed_length_hex, well_formed_id, ObjectId_of.
  intros [Hlen Hhex]%andb_true_iff. rewrite Hlen.
  apply Nat.eqb_eq in Hlen.
  by rewrite (fromhex_hex_digits 12 s Hlen Hhex).
Qed.

(** ** Collections *)

Lemma coll_find_one_has_id v c d :
  coll_find_one v c = Some d → d !! "_id" = Some v.
Proof.
  induction c as [|d' c IH]; [done|]. cbn [coll_find_one].
  destruct (has_id v d') eqn:E; [|done].
  intros [= ->]. by apply bool_decide_eq_true in E.
Qed.

Lemma coll_find_one_app_new v c d :
  coll_find_one v c = None → d !! "_id" = Some v →
  coll_find_one v (c ++ [d]) = Some d.
Proof.
  intros Hc Hd. induction c as [|d' c IH]; simpl in *.
  - assert (has_id v d = true) as -> by (by apply bool_decide_eq_true). done.
  - destruct (has_id v d'); [done|]. by apply IH.
Qed.

Lemma has_id_union v upd d :
  upd !! "_id" = None → has_id v (upd ∪ d) = has_id v d.
Proof.
  intros H. unfold has_id. by rewrite lookup_union_r.
Qed.

Lemma coll_find_one_update v upd c :
  upd !! "_id" = None →
  coll_find_one v (coll_update_one v upd c) = (upd ∪.) <$> coll_find_one v c.
Proof.
  intros H. induction c as [|d c IH]; [done|]. cbn [coll_find_one coll_update_one].
  destruct (has_id v d) eqn:E; cbn [coll_find_one].
  - by rewrite has_id_union, E.
  - by rewrite E.
Qed.

Lemma coll_delete_one_absent v c :
  coll_find_one v c = None → coll_delete_one v c = c.
Proof.
  induction c as [|d c IH]; [done|]. cbn [coll_find_one coll_delete_one].
  destruct (has_id v d); [done|]. intros H. by rewrite IH.
Qed.

Lemma coll_update_one_absent v upd c :
  coll_find_one v c = None → coll_update_one v upd c = c.
Proof.
  induction c as [|d c IH]; [done|]. cbn [coll_find_one coll_update_one].
  destruct (has_id v d); [done|]. intros H. by rewrite IH.
Qed.

(** ** Running the helpers *)

Lemma find_one_run v env w :
  find_one v env w =
  if fault env (length (calls w)) then
    (inl (PyMongoError "network"), log_call (FindOne v) w)
  else (inr (coll_find_one v (todos_collection w)), log_call (FindOne v) w).
Proof. unfold find_one, storage_call. by destruct (fault env _). Qed.

Lemma update_one_run v fields env w :
  update_one v fields env w =
  if fault env (length (calls w)) then
    (inl (PyMongoError "network"), log_call (UpdateOne v fields) w)
  else (inr tt, with_collection (coll_update_one v fields (todos_collection w))
                  (log_call (UpdateOne v fields) w)).
Proof. unfold update_one, storage_call. by destruct (fault env _). Qed.

Lemma delete_one_run v env w :
  delete_one v env w =
  if fault env (length (calls w)) then
    (inl (PyMongoError "network"), log_call (DeleteOne v) w)
  else (inr (match coll_find_one v (todos_collection w) with Some _ => 1 | None => 0 end),
        with_collection (coll_delete_one v (todos_collection w))
          (log_call (DeleteOne v) w)).
Proof. unfold delete_one, storage_call. by destruct (fault env _). Qed.

Lemma insert_one_run doc env w :
  doc !! "_id" = None →
  insert_one doc env w =
  let id := VOid (new_oid env (length (calls w))) in
  if fault env (length (calls w)) then
    (inl (PyMongoError "network"), log_call (InsertOne doc) w)
  else match coll_find_one id (todos_collection w) with
       | Some _ => (inl (PyMongoError "duplicate key"), log_call (InsertOne doc) w)
       | None =>
           (inr id, with_collection (todos_collection w ++ [<["_id" := id]> doc])
                      (log_call (InsertOne doc) w))
       end.
Proof.
  intros H. unfold insert_one, storage_call, dict_get. rewrite H. cbn [default].
  destruct (fault env _); [done|]. by destruct (coll_find_one _ _).
Qed.

Lemma update_active_todos_count_run env w :
  update_active_todos_count env w =
  (inr tt,
   with_registry
     (if fault env (length (calls w)) then inc_db_errors "count" (REGISTRY w)
      else set_active_todos (coll_count_active (todos_collection w)) (REGISTRY w))
     (log_call CountDocuments w)).
Proof.
  unfold update_active_todos_count, try_except, mbind, M_bind, bind,
    count_documents, storage_call.
  by destruct (fault env _).
Qed.

Lemma todo_dict_no_id todo :
  (<["completed" := VBool false]> (TodoCreate.dict todo) : dict) !! "_id" = None.
Proof. reflexivity. Qed.

Lemma serialize_created id todo :
  serialize_todo
    (Some (<["_id" := id]> (<["completed" := VBool false]> (TodoCreate.dict todo))))
  = inr (created_json id todo).
Proof. reflexivity. Qed.

Lemma serialize_todo_error todo e :
  serialize_todo todo = inl e → is_PyMongoError e = false ∧ ∀ s d, e ≠ HTTPException s d.
Proof.
  unfold serialize_todo. destruct todo as [d|]; [|by intros [= <-]].
  destruct (d !! "_id"); [|by intros [= <-]].
  destruct (d !! "title"); [done|by intros [= <-]].
Qed.

Lemma create_todo_run env w todo :
  respond 201 (create_todo todo) env w =
  let n := length (calls w) in
  let todo_dict : dict := <["completed" := VBool false]> (TodoCreate.dict todo) in
  let id := VOid (new_oid env n) in
  let w1 := log_call (InsertOne todo_dict) w in
  let failed (w : World) :=
    (http_error 500 "Failed to create todo",
     with_registry (inc_db_errors "create" (REGISTRY w)) w) in
  if fault env n then failed w1
  else match coll_find_one id (todos_collection w) with
       | Some _ => failed w1
       | None =>
           let doc : dict := <["_id" := id]> todo_dict in
           let w2 :=
             with_registry (inc_todos_created (REGISTRY w))
               (with_collection (todos_collection w ++ [doc]) w1) in
           let w3 := (update_active_todos_count env w2).2 in
           let w4 := log_call (FindOne id) w3 in
           if fault env (length (calls w3)) then failed w4
           else ({| status_code := 201; body := JObject (created_json id todo) |}, w4)
       end.
Proof.
  cbv zeta. unfold respond, create_todo. unfold_monad.
  rewrite insert_one_run by apply todo_dict_no_id. cbv zeta.
  destruct (fault env (length (calls w))); [done|].
  destruct (coll_find_one _ (todos_collection w)) eqn:Hfind; [done|].
  rewrite !update_active_todos_count_run. cbn [snd].
  rewrite find_one_run.
  destruct (fault env _); [done|].
  cbn [todos_collection with_registry with_collection log_call].
  rewrite (coll_find_one_app_new _ _ _ Hfind) by apply lookup_insert_eq.
  by rewrite serialize_created.
Qed.

Lemma update_todo_run env w todo_id u oid :
  ObjectId_of todo_id = inr oid →
  respond 200 (update_todo todo_id u) env w =
  let id := VOid oid in
  let update_dict := without_none (TodoUpdate.dict u) in
  let failed (w : World) :=
    (http_error 500 "Failed to update todo",
     with_registry (inc_db_errors "update" (REGISTRY w)) w) in
  let invalid (w : World) := (http_error 400 "Invalid todo ID", w) in
  let w1 := log_call (FindOne id) w in
  if fault env (length (calls w)) then failed w1
  else match coll_find_one id (todos_collection w) with
       | None => invalid w1
       | Some existing =>
           if bool_decide (update_dict = ∅) then
             match serialize_todo (Some existing) with
             | inr j => (ok j, w1)
             | inl _ => invalid w1
             end
           else
             let w2 :=
               if truthy (dict_get update_dict "completed" VNone)
                  && negb (prior_completed existing)
               then with_registry (inc_todos_completed (REGISTRY w)) w1
               else w1 in
             let w3 := log_call (UpdateOne id update_dict) w2 in
             if fault env (length (calls w2)) then failed w3
             else
               let w4 :=
                 with_collection
                   (coll_update_one id update_dict (todos_collection w2)) w3 in
               let w5 := log_call (FindOne id) w4 in
               if fault env (length (calls w4)) then failed w5
               else
                 let w6 := (update_active_todos_count env w5).2 in
                 match serialize_todo (coll_find_one id (todos_collection w4)) with
                 | inr j => (ok j, w6)
                 | inl _ => invalid w6
                 end
       end.
Proof.
  intros Hid. cbv zeta. unfold respond, update_todo. unfold_monad.
  rewrite !Hid. unfold ret. cbv beta iota. rewrite find_one_run.
  destruct (fault env (length (calls w))); [done|].
  destruct (coll_find_one _ (todos_collection w)) as [existing|]; [|done].
  destruct (bool_decide _).
  { destruct (serialize_todo _) as [e|?] eqn:Hs; [|done].
    apply serialize_todo_error in Hs as [Hs _]. by destruct e. }
  fold (prior_completed existing).
  destruct (truthy _ && negb _).
  - rewrite update_one_run. destruct (fault env _); [done|].
    rewrite find_one_run. destruct (fault env _); [done|].
    rewrite !update_active_todos_count_run. cbn [snd].
    destruct (serialize_todo _) as [e|?] eqn:Hs; [|done].
    apply serialize_todo_error in Hs as [Hs _]. by destruct e.
  - rewrite update_one_run. destruct (fault env _); [done|].
    rewrite find_one_run. destruct (fault env _); [done|].
    rewrite !update_active_todos_count_run. cbn [snd].
    destruct (serialize_todo _) as [e|?] eqn:Hs; [|done].
    apply serialize_todo_error in Hs as [Hs _]. by destruct e.
Qed.

Lemma update_todo_malformed env w todo_id u :
  well_formed_id todo_id = false →
  respond 200 (update_todo todo_id u) env w = (http_error 400 "Invalid todo ID", w).
Proof.
  intros H. unfold respond, update_todo.
  rewrite (ObjectId_of_malformed _ H). done.
Qed.

Lemma delete_todo_run env w todo_id oid :
  ObjectId_of todo_id = inr oid →
  respond 200 (delete_todo todo_id) env w =
  let id := VOid oid in
  let w1 := log_call (DeleteOne id) w in
  if fault env (length (calls w)) then
    (http_error 500 "Failed to delete todo",
     with_registry (inc_db_errors "delete" (REGISTRY w)) w1)
  else match coll_find_one id (todos_collection w) with
       | None =>
           (http_error 400 "Invalid todo ID",
            with_collection (coll_delete_one id (todos_collection w)) w1)
       | Some _ =>
           let w2 :=
             with_registry (inc_todos_deleted (REGISTRY w))
               (with_collection (coll_delete_one id (todos_collection w)) w1) in
           ({| status_code := 200;
               body := JObject {["message" := VStr "Todo deleted"]} |},
            (update_active_todos_count env w2).2)
       end.
Proof.
  intros Hid. cbv zeta. unfold respond, delete_todo. unfold_monad.
  rewrite Hid. unfold ret. cbv beta iota. rewrite delete_one_run.
  destruct (fault env (length (calls w))); [done|].
  destruct (coll_find_one _ (todos_collection w)); [|done].
  cbn [Nat.eqb]. by rewrite !update_active_todos_count_run.
Qed.

Lemma delete_todo_malformed env w todo_id :
  well_formed_id todo_id = false →
  respond 200 (delete_todo todo_id) env w = (http_error 400 "Invalid todo ID", w).
Proof.
  intros H. unfold respond, delete_todo.
  rewrite (ObjectId_of_malformed _ H). done.
Qed.

(** ** The other routes *)

Lemma serialize_all_error todos e :
  serialize_all todos = inl e →
  is_PyMongoError e = false ∧ ∀ s d, e ≠ HTTPException s d.
Proof.
  induction todos as [|d todos IH]; [done|]. cbn [serialize_all].
  destruct (serialize_todo (Some d)) as [e'|j] eqn:Hs.
  - intros [= <-]. by apply serialize_todo_error in Hs.
  - destruct (serialize_all todos); [|done]. intros [= <-]. by apply IH.
Qed.

Lemma ready_run env w :
  respond 200 ready env w =
  if fault env (length (calls w)) then
    (http_error 503 "MongoDB not ready", log_call Ping w)
  else ({| status_code := 200; body := JObject {["status" := VStr "ready"]} |},
        log_call Ping w).
Proof.
  unfold respond, ready, ping, storage_call. unfold_monad.
  by destruct (fault env _).
Qed.

Lemma get_todos_run env w :
  respond 200 get_todos env w =
  if fault env (length (calls w)) then
    (http_error 500 "Failed to fetch todos",
     with_registry (inc_db_errors "find" (REGISTRY w)) (log_call Find w))
  else match serialize_all (todos_collection w) with
       | inr js => ({| status_code := 200; body := JArray js |}, log_call Find w)
       | inl _ => (internal_server_error, log_call Find w)
       end.
Proof.
  unfold respond, get_todos, find, storage_call. unfold_monad.
  destruct (fault env _); [done|].
  destruct (serialize_all _) as [e|?] eqn:Hs; [|done].
  apply serialize_all_error in Hs as [Hs Hh].
  destruct e as [| | | |sc dt]; try done. by destruct (Hh sc dt).
Qed.

Lemma lifespan_startup_run env w :
  lifespan_startup env w =
  if fault env (length (calls w)) then
    (inl (PyMongoError "network"),
     with_registry (set_mongo_connections 0 (REGISTRY w)) (log_call Ping w))
  else
    update_active_todos_count env
      (with_registry (set_mongo_connections 1 (REGISTRY w)) (log_call Ping w)).
Proof.
  unfold lifespan_startup, ping, storage_call. unfold_monad.
  destruct (fault env _); [done|].
  by rewrite !update_active_todos_count_run.
Qed.

(** ** The gauge *)

Lemma app_gauge_agrees env r w :
  storage_succeeds env → gauge_agrees w → gauge_agrees (app r env w).2.
Proof.
  intros Hs Hw. unfold gauge_agrees in *. destruct r; cbn [app].
  - done.
  - done.
  - rewrite ready_run, Hs. done.
  - done.
  - rewrite get_todos_run, Hs. by destruct (serialize_all _).
  - rewrite create_todo_run. cbv zeta. rewrite !Hs.
    rewrite update_active_todos_count_run, Hs.
    by destruct (coll_find_one _ _).
  - destruct (ObjectId_of_cases todo_id) as [[Hm _]|[_ [oid Hid]]].
    { by rewrite update_todo_malformed. }
    rewrite (update_todo_run _ _ _ _ _ Hid). cbv zeta. rewrite !Hs.
    destruct (coll_find_one _ _); [|done].
    destruct (bool_decide _); [by destruct (serialize_todo _)|].
    rewrite !Hs, update_active_todos_count_run, Hs.
    by destruct (serialize_todo _), (_ && _).
  - destruct (ObjectId_of_cases todo_id) as [[Hm _]|[_ [oid Hid]]].
    { by rewrite delete_todo_malformed. }
    rewrite (delete_todo_run _ _ _ _ Hid). cbv zeta. rewrite !Hs.
    rewrite update_active_todos_count_run, Hs.
    destruct (coll_find_one _ _) eqn:Hf; [done|].
    cbn. by rewrite coll_delete_one_absent.
Qed.

Lemma serve_gauge_agrees env rs w :
  storage_succeeds env → gauge_agrees w → gauge_agrees (serve env rs w).
Proof.
  intros Hs. revert w. induction rs as [|r rs IH]; intros w Hw; [done|].
  cbn [serve fold_left]. apply IH. by apply app_gauge_agrees.
Qed.

Lemma startup_gauge_agrees env c :
  storage_succeeds env → gauge_agrees (lifespan_startup env (boot c)).2.
Proof.
  intros Hs. rewrite lifespan_startup_run, Hs, update_active_todos_count_run, Hs.
  done.
Qed.


(** ** The histogram *)

Lemma update_active_todos_count_histogram env w :
  http_request_duration (REGISTRY (update_active_todos_count env w).2)
  = http_request_duration (REGISTRY w).
Proof. rewrite update_active_todos_count_run. by destruct (fault env _). Qed.

Lemma app_histogram env r w :
  http_request_duration (REGISTRY (app r env w).2) = http_request_duration (REGISTRY w).
Proof.
  destruct r; cbn [app].
  - done.
  - done.
  - rewrite ready_run. by destruct (fault env _).
  - done.
  - rewrite get_todos_run. destruct (fault env _); [done|]. by destruct (serialize_all _).
  - rewrite create_todo_run. cbv zeta.
    destruct (fault env _); [done|]. destruct (coll_find_one _ _); [done|].
    destruct (fault env _); cbn; by rewrite update_active_todos_count_histogram.
  - destruct (ObjectId_of_cases todo_id) as [[Hm _]|[_ [oid Hid]]].
    { by rewrite update_todo_malformed. }
    rewrite (update_todo_run _ _ _ _ _ Hid). cbv zeta.
    destruct (fault env _); [done|]. destruct (coll_find_one _ _); [|done].
    destruct (bool_decide _); [by destruct (serialize_todo _)|].
    destruct (_ && _).
    + destruct (fault env _); [done|]. destruct (fault env _); [done|].
      destruct (serialize_todo _); cbn; by rewrite update_active_todos_count_histogram.
    + destruct (fault env _); [done|]. destruct (fault env _); [done|].
      destruct (serialize_todo _); cbn; by rewrite update_active_todos_count_histogram.
  - destruct (ObjectId_of_cases todo_id) as [[Hm _]|[_ [oid Hid]]].
    { by rewrite delete_todo_malformed. }
    rewrite (delete_todo_run _ _ _ _ Hid). cbv zeta.
    destruct (fault env _); [done|]. destruct (coll_find_one _ _); [|done].
    cbn. by rewrite update_active_todos_count_histogram.
Qed.

Lemma serve_histogram env rs w :
  http_request_duration (REGISTRY (serve env rs w)) = http_request_duration (REGISTRY w).
Proof.
  revert w. induction rs as [|r rs IH]; intros w; [done|].
  cbn [serve fold_left]. etrans; [apply IH|]. apply app_histogram.
Qed.

Lemma startup_histogram env c :
  http_request_duration (REGISTRY (lifespan_startup env (boot c)).2) = ∅.
Proof.
  rewrite lifespan_startup_run. destruct (fault env _); [done|].
  by rewrite update_active_todos_count_histogram.
Qed.

(** ** Text *)

Lemma append_cons a s t : String a s +:+ t = String a (s +:+ t).
Proof. reflexivity. Qed.

Lemma starts_with_app p s : starts_with p (p +:+ s) = true.
Proof.
  induction p as [|a p IH]; [done|].
  rewrite append_cons. cbn [starts_with]. by rewrite Ascii.eqb_refl, IH.
Qed.

Lemma contains_app_here p s : contains p (p +:+ s) = true.
Proof.
  destruct p as [|a p]; [by destruct s|].
  rewrite append_cons. cbn [contains]. rewrite <- append_cons.
  by rewrite starts_with_app.
Qed.

Lemma contains_app_later p s t : contains p t = true → contains p (s +:+ t) = true.
Proof.
  intros H. induction s as [|a s IH]; [done|].
  rewrite append_cons. cbn [contains]. rewrite IH. apply orb_true_r.
Qed.

Lemma starts_with_app_l p s t : starts_with p s = true → starts_with p (s +:+ t) = true.
Proof.
  revert s. induction p as [|a p IH]; intros s; [done|].
  destruct s as [|b s]; [done|]. rewrite append_cons. cbn [starts_with].
  intros [-> H]%andb_true_iff. by rewrite IH.
Qed.

Lemma contains_app_earlier p s t : contains p s = true → contains p (s +:+ t) = true.
Proof.
  induction s as [|a s IH].
  - destruct p; [by destruct t|done].
  - rewrite append_cons. cbn [contains]. intros [H|H]%orb_true_iff.
    + rewrite <- append_cons. by rewrite starts_with_app_l.
    + rewrite IH by done. apply orb_true_r.
Qed.

Lemma generate_latest_names_histogram r :
  contains "http_request_duration_seconds" (generate_latest r) = true.
Proof.
  unfold generate_latest. apply contains_app_earlier.
  unfold help_and_type. apply (contains_app_later _ "# HELP "), contains_app_here.
Qed.

(** ** The fields a PUT sets *)

Lemma update_dict_lookup u k :
  without_none (TodoUpdate.dict u) !! k =
  if bool_decide (k = "title") then VStr <$> TodoUpdate.title u
  else if bool_decide (k = "description") then VStr <$> TodoUpdate.description u
  else if bool_decide (k = "completed") then VBool <$> TodoUpdate.completed u
  else None.
Proof.
  unfold without_none, TodoUpdate.dict.
  destruct u as [t d c]. cbn [TodoUpdate.title TodoUpdate.description TodoUpdate.completed].
  rewrite map_lookup_filter.
  repeat case_bool_decide; subst.
  - rewrite lookup_insert_eq. by destruct t.
  - rewrite lookup_insert_ne, lookup_insert_eq by done. by destruct d.
  - rewrite !lookup_insert_ne, lookup_insert_eq by done. by destruct c.
  - by rewrite !lookup_insert_ne, lookup_empty by done.
Qed.

Lemma update_dict_empty u :
  without_none (TodoUpdate.dict u) = ∅ ↔ supplies_fields u = false.
Proof.
  unfold supplies_fields. split.
  - intros H.
    pose proof (update_dict_lookup u "title") as Ht.
    pose proof (update_dict_lookup u "description") as Hd.
    pose proof (update_dict_lookup u "completed") as Hc.
    rewrite H, lookup_empty in Ht, Hd, Hc. cbn in Ht, Hd, Hc.
    by destruct (TodoUpdate.title u), (TodoUpdate.description u),
      (TodoUpdate.completed u).
  - intros H. apply map_eq. intros k. rewrite update_dict_lookup, lookup_empty.
    destruct (TodoUpdate.title u), (TodoUpdate.description u),
      (TodoUpdate.completed u); try done.
    by repeat case_bool_decide.
Qed.

Lemma update_dict_empty_b u :
  bool_decide (without_none (TodoUpdate.dict u) = ∅) = negb (supplies_fields u).
Proof.
  destruct (supplies_fields u) eqn:H; cbn.
  - apply bool_decide_eq_false_2. rewrite update_dict_empty. congruence.
  - apply bool_decide_eq_true_2. by apply update_dict_empty.
Qed.

Lemma update_dict_sets_completed u :
  truthy (dict_get (without_none (TodoUpdate.dict u)) "completed" VNone)
  = bool_decide (TodoUpdate.completed u = Some true).
Proof.
  unfold dict_get. rewrite update_dict_lookup. cbn.
  by destruct (TodoUpdate.completed u) as [[]|].
Qed.

(** ** The log of storage calls *)

Lemma length_snoc {A} (l : list A) a : length (l ++ [a]) = S (length l).
Proof. rewrite length_app. cbn. lia. Qed.

Lemma lookup_after0 {A} (l t : list A) a : (l ++ a :: t) !! length l = Some a.
Proof. by rewrite list_lookup_middle. Qed.

Lemma lookup_after1 {A} (l t : list A) a b :
  (l ++ a :: b :: t) !! S (length l) = Some b.
Proof.
  rewrite (cons_middle a), app_assoc, <- (length_snoc l a). apply lookup_after0.
Qed.

Lemma lookup_after2 {A} (l t : list A) a b c :
  (l ++ a :: b :: c :: t) !! S (S (length l)) = Some c.
Proof.
  rewrite (cons_middle a), app_assoc, <- (length_snoc l a). apply lookup_after1.
Qed.

Lemma lookup_after3 {A} (l t : list A) a b c d :
  (l ++ a :: b :: c :: d :: t) !! S (S (S (length l))) = Some d.
Proof.
  rewrite (cons_middle a), app_assoc, <- (length_snoc l a). apply lookup_after2.
Qed.

Lemma recounts_intro env w w' i :
  length (calls w) ≤ i →
  calls w' !! i = Some CountDocuments →
  (fault env i = false → gauge_agrees w') →
  recounts env w w'.
Proof. intros. exists i. done. Qed.

Lemma recounts_issues_count env w w' :
  recounts env w w' →
  existsb is_count (drop (length (calls w)) (calls w')) = true.
Proof.
  intros (i & Hi & Hcall & _). apply existsb_exists.
  exists CountDocuments. split; [|done].
  apply list_elem_of_In, list_elem_of_lookup. exists (i - length (calls w)).
  rewrite lookup_drop. by replace (length (calls w) + (i - length (calls w))) with i by lia.
Qed.

Lemma only_count_fails_at env w w' new k c :
  only_count_fails env w w' →
  calls w' = calls w ++ new →
  new !! k = Some c →
  fault env (k + length (calls w)) = is_count c.
Proof.
  intros Hlog Hcalls Hk. apply Hlog; [lia|].
  rewrite Hcalls, lookup_app_r by lia.
  by replace (k + length (calls w) - length (calls w)) with k by lia.
Qed.

Lemma faults_match_lookup env cs i k c :
  faults_match env i cs = true → cs !! k = Some c → fault env (i + k) = is_count c.
Proof.
  revert i k. induction cs as [|c' cs IH]; intros i k; [done|].
  cbn [faults_match]. intros [Hc Hcs]%andb_true_iff.
  destruct k as [|k]; cbn [lookup list_lookup].
  - intros [= <-]. rewrite Nat.add_0_r. by apply Bool.eqb_prop.
  - intros Hk. rewrite Nat.add_succ_r. by apply (IH (S i)).
Qed.

Lemma faults_match_only_count env w w' :
  faults_match env (length (calls w)) (drop (length (calls w)) (calls w')) = true →
  only_count_fails env w w'.
Proof.
  intros H i c Hi Hc.
  replace i with (length (calls w) + (i - length (calls w))) by lia.
  apply (faults_match_lookup _ _ _ _ _ H). rewrite lookup_drop.
  by replace (length (calls w) + (i - length (calls w))) with i by lia.
Qed.

(** ** Serialising *)

Lemma serialize_with_title d :
  is_Some (d !! "_id") → is_Some (d !! "title") → ∃ j, serialize_todo (Some d) = inr j.
Proof.
  intros [id Hid] [t Ht]. unfold serialize_todo. rewrite Hid, Ht. by eexists.
Qed.

(** A stored boolean is read as it is, and a missing flag as false. *)
Lemma prior_completed_stored (existing : dict) :
  prior_completed existing =
  match existing !! "completed" with
  | Some v => truthy v
  | None => false
  end.
Proof. unfold prior_completed, dict_get. by destruct (existing !! "completed"). Qed.

(** ** What a successful PUT did *)

Lemma put_success env w todo_id u resp w' :
  app (PUT_todos todo_id u) env w = (resp, w') →
  status_code resp = 200 →
  ∃ oid existing,
    ObjectId_of todo_id = inr oid ∧
    coll_find_one (VOid oid) (todos_collection w) = Some existing ∧
    todos_completed (REGISTRY w') =
      todos_completed (REGISTRY w) +
      (if negb (prior_completed existing)
          && bool_decide (TodoUpdate.completed u = Some true)
       then 1 else 0) ∧
    todos_collection w' =
      if supplies_fields u
      then coll_update_one (VOid oid) (without_none (TodoUpdate.dict u))
             (todos_collection w)
      else todos_collection w.
Proof.
  cbn [app]. intros Happ Hst.
  destruct (ObjectId_of_cases todo_id) as [[Hm _]|[_ [oid Hid]]].
  { rewrite update_todo_malformed in Happ by done. by injection Happ as <- <-. }
  rewrite (update_todo_run _ _ _ _ _ Hid) in Happ. cbv zeta in Happ.
  destruct (fault env _); [by injection Happ as <- <-|].
  destruct (coll_find_one _ _) as [existing|] eqn:Hfind;
    [|by injection Happ as <- <-].
  exists oid, existing. split; [done|]. split; [done|].
  rewrite update_dict_empty_b, update_dict_sets_completed in Happ.
  destruct (supplies_fields u) eqn:Hsup; cbn [negb] in Happ.
  - destruct (fault env _); [by injection Happ as <- <-|].
    destruct (fault env _); [by injection Happ as <- <-|].
    rewrite update_active_todos_count_run in Happ.
    rewrite (andb_comm (negb _)).
    destruct (serialize_todo _); injection Happ as <- <-; [done|].
    destruct (_ && _), (fault env _); cbn; split; try done; lia.
  - assert (TodoUpdate.completed u = None) as ->.
    { unfold supplies_fields in Hsup. by destruct (TodoUpdate.completed u), (TodoUpdate.title u), (TodoUpdate.description u). }
    rewrite andb_false_r.
    destruct (serialize_todo _); injection Happ as <- <-; [done|].
    cbn. split; [lia|done].
Qed.

(** No route answers 404: the handlers that raise it catch it themselves. *)
Lemma never_404 env r w : status_code (app r env w).1 ≠ 404.
Proof.
  destruct r; cbn [app]; try done.
  - rewrite ready_run. by destruct (fault env _).
  - rewrite get_todos_run. destruct (fault env _); [done|]. by destruct (serialize_all _).
  - rewrite create_todo_run. cbv zeta.
    destruct (fault env _); [done|]. destruct (coll_find_one _ _); [done|].
    by destruct (fault env _).
  - destruct (ObjectId_of_cases todo_id) as [[Hm _]|[_ [oid Hid]]].
    { by rewrite update_todo_malformed. }
    rewrite (update_todo_run _ _ _ _ _ Hid). cbv zeta.
    destruct (fault env _); [done|]. destruct (coll_find_one _ _); [|done].
    destruct (bool_decide _); [by destruct (serialize_todo _)|].
    destruct (fault env _); [done|]. destruct (fault env _); [done|].
    by destruct (serialize_todo _).
  - destruct (ObjectId_of_cases todo_id) as [[Hm _]|[_ [oid Hid]]].
    { by rewrite delete_todo_malformed. }
    rewrite (delete_todo_run _ _ _ _ Hid). cbv zeta.
    destruct (fault env _); [done|]. by destruct (coll_find_one _ _).
Qed.

(** * The claims *)

(** ** C1 *)

(** C1.  In a process whose storage calls all succeed, from start-up on
    and after any requests, whenever a POST /todos, PUT /todos/{id} or
    DELETE /todos/{id} handler completes successfully the active_todos
    gauge equals the number of documents of the collection whose completed
    field is false. *)
Theorem gauge_counts_active_todos env c rs r resp w' :
  storage_succeeds env →
  is_mutation r = true →
  app r env (serve env rs (lifespan_startup env (boot c)).2) = (resp, w') →
  status_code resp = success_status r →
  gauge_agrees w'.
Proof.
  intros Hs _ Happ _.
  change w' with (resp, w').2. rewrite <- Happ.
  apply app_gauge_agrees, serve_gauge_agrees, startup_gauge_agrees; done.
Qed.

Lemma gauge_counts_active_todos_witness :
  let rs := [POST_todos Sample.todo1; POST_todos Sample.todo2;
             PUT_todos Sample.id1 Sample.complete; GET_todos;
             PUT_todos Sample.id2 Sample.nothing] in
  let r := DELETE_todos Sample.id1 in
  let out := app r Sample.env (serve Sample.env rs (lifespan_startup Sample.env (boot [])).2) in
  storage_succeeds Sample.env ∧
  is_mutation r = true ∧
  status_code out.1 = success_status r ∧
  gauge_agrees out.2.
Proof.
  cbv zeta. split; [intros n; reflexivity|]. split; [reflexivity|].
  split; [reflexivity|].
  eapply (gauge_counts_active_todos Sample.env []
            [POST_todos Sample.todo1; POST_todos Sample.todo2;
             PUT_todos Sample.id1 Sample.complete; GET_todos;
             PUT_todos Sample.id2 Sample.nothing]
            (DELETE_todos Sample.id1));
    [intros n; reflexivity | reflexivity | apply surjective_pairing | reflexivity].
Defined.

(** ** C2 *)

(** C2, as the code has it.  For a well-formed identifier that matches no
    document, when the look-up itself does not raise, PUT /todos/{id} and
    DELETE /todos/{id} answer 400 "Invalid todo ID", not 404: the
    HTTPException(404) is raised inside the [try] whose [except Exception]
    clause turns every exception that is not a PyMongoError into a 400. *)
Theorem absent_id_answers_400 env w todo_id oid todo_update :
  ObjectId_of todo_id = inr oid →
  coll_find_one (VOid oid) (todos_collection w) = None →
  fault env (length (calls w)) = false →
  (app (PUT_todos todo_id todo_update) env w).1 = http_error 400 "Invalid todo ID" ∧
  (app (DELETE_todos todo_id) env w).1 = http_error 400 "Invalid todo ID".
Proof.
  intros Hid Hnone Hf. split; cbn [app].
  - rewrite (update_todo_run _ _ _ _ _ Hid). cbv zeta. by rewrite Hf, Hnone.
  - rewrite (delete_todo_run _ _ _ _ Hid). cbv zeta. by rewrite Hf, Hnone.
Qed.

Lemma absent_id_answers_400_witness :
  ObjectId_of Sample.absent_id = inr (Oid Sample.absent_id) ∧
  coll_find_one (VOid (Oid Sample.absent_id)) (todos_collection Sample.two_todos) = None ∧
  fault Sample.env (length (calls Sample.two_todos)) = false ∧
  (app (PUT_todos Sample.absent_id Sample.rename) Sample.env Sample.two_todos).1
    = http_error 400 "Invalid todo ID" ∧
  (app (DELETE_todos Sample.absent_id) Sample.env Sample.two_todos).1
    = http_error 400 "Invalid todo ID".
Proof.
  split; [reflexivity|]. split; [reflexivity|]. split; [reflexivity|].
  apply (absent_id_answers_400 Sample.env Sample.two_todos Sample.absent_id
           (Oid Sample.absent_id) Sample.rename); reflexivity.
Defined.

(** Deleting the same item twice: 200, then 400. *)
Example delete_twice :
  let first := app (DELETE_todos Sample.id1) Sample.env Sample.two_todos in
  let second := app (DELETE_todos Sample.id1) Sample.env first.2 in
  status_code first.1 = 200 ∧ second.1 = http_error 400 "Invalid todo ID".
Proof. split; reflexivity. Qed.

(** ** C3 *)

(** C3, as the code has it.  After a successful POST /todos the document
    that was appended to the collection has no createdAt field, and the
    createdAt of the returned item is the empty text: nothing assigns a
    creation timestamp. *)
Theorem created_item_has_no_createdAt env w todo resp w' :
  app (POST_todos todo) env w = (resp, w') →
  status_code resp = 201 →
  ∃ doc j,
    todos_collection w' = todos_collection w ++ [doc] ∧
    doc !! "createdAt" = None ∧
    serialize_todo (Some doc) = inr j ∧
    body resp = JObject j ∧
    j !! "createdAt" = Some (VStr "").
Proof.
  cbn [app]. rewrite create_todo_run. cbv zeta. intros Happ Hst.
  destruct (fault env _); [by injection Happ as <- <-|].
  destruct (coll_find_one _ _); [by injection Happ as <- <-|].
  destruct (fault env _); [by injection Happ as <- <-|].
  injection Happ as <- <-. eexists _, _.
  rewrite update_active_todos_count_run. cbn.
  split; [done|]. split; [done|]. split; [apply serialize_created|]. done.
Qed.

Lemma created_item_has_no_createdAt_witness :
  let r := app (POST_todos Sample.todo2) Sample.env Sample.started in
  status_code r.1 = 201 ∧
  ∃ doc j,
    todos_collection r.2 = todos_collection Sample.started ++ [doc] ∧
    doc !! "createdAt" = None ∧
    serialize_todo (Some doc) = inr j ∧
    body r.1 = JObject j ∧
    j !! "createdAt" = Some (VStr "").
Proof.
  split; [reflexivity|].
  apply (created_item_has_no_createdAt Sample.env Sample.started Sample.todo2);
    [apply surjective_pairing | reflexivity].
Defined.

(** ** C4 *)

(** C4.  A successful PUT /todos/{id} adds one to the todos_completed
    counter exactly when the item's prior completed value was false and the
    body sets completed to true, and leaves the counter unchanged in every
    other case; so a second, equal PUT {completed: true} that succeeds
    right after the first leaves it unchanged. *)
Theorem completion_is_counted_once env w todo_id u resp w' :
  app (PUT_todos todo_id u) env w = (resp, w') →
  status_code resp = 200 →
  ∃ oid existing,
    ObjectId_of todo_id = inr oid ∧
    coll_find_one (VOid oid) (todos_collection w) = Some existing ∧
    todos_completed (REGISTRY w') =
      todos_completed (REGISTRY w) +
      (if negb (prior_completed existing)
          && bool_decide (TodoUpdate.completed u = Some true)
       then 1 else 0) ∧
    (TodoUpdate.completed u = Some true →
     ∀ resp2 w'',
       app (PUT_todos todo_id u) env w' = (resp2, w'') →
       status_code resp2 = 200 →
       todos_completed (REGISTRY w'') = todos_completed (REGISTRY w')).
Proof.
  intros Happ Hst.
  destruct (put_success _ _ _ _ _ _ Happ Hst) as (oid & existing & Hid & Hfind & Hn & Hc).
  exists oid, existing. do 3 (split; [done|]).
  intros Hu resp2 w'' Happ2 Hst2.
  destruct (put_success _ _ _ _ _ _ Happ2 Hst2) as (oid2 & existing2 & Hid2 & Hfind2 & Hn2 & _).
  rewrite Hid in Hid2. injection Hid2 as <-.
  assert (supplies_fields u = true) as Hsup.
  { unfold supplies_fields. rewrite Hu. apply orb_true_r. }
  rewrite Hsup in Hc. rewrite Hc in Hfind2.
  rewrite coll_find_one_update, Hfind in Hfind2.
  2:{ rewrite update_dict_lookup. by repeat case_bool_decide. }
  apply (inj Some) in Hfind2. subst existing2.
  assert (prior_completed (without_none (TodoUpdate.dict u) ∪ existing) = true) as Hp.
  { unfold prior_completed, dict_get.
    rewrite (lookup_union_Some_l _ _ _ (VBool true)); [done|].
    rewrite update_dict_lookup, Hu. by repeat case_bool_decide. }
  rewrite Hp in Hn2. cbn in Hn2. lia.
Qed.

Lemma completion_is_counted_once_witness :
  let first := app (PUT_todos Sample.id1 Sample.complete) Sample.env Sample.two_todos in
  let second := app (PUT_todos Sample.id1 Sample.complete) Sample.env first.2 in
  status_code first.1 = 200 ∧
  status_code second.1 = 200 ∧
  todos_completed (REGISTRY first.2) = 1 + todos_completed (REGISTRY Sample.two_todos) ∧
  todos_completed (REGISTRY second.2) = todos_completed (REGISTRY first.2).
Proof.
  cbv zeta. split; [reflexivity|]. split; [reflexivity|]. split; [reflexivity|].
  destruct (completion_is_counted_once Sample.env Sample.two_todos Sample.id1
              Sample.complete _ _ (surjective_pairing _) eq_refl)
    as (_ & _ & _ & _ & _ & Hrepeat).
  apply (Hrepeat eq_refl _ _ (surjective_pairing _)). reflexivity.
Defined.

(** ** C5 *)

(** C5, as the code has it.  When the item is found, its completed value is
    false, the body sets completed to true and the update raises a storage
    error, the handler answers 500 "Failed to update todo" and the
    collection is unchanged, yet the todos_completed counter has been
    incremented: the counter is bumped before the update is attempted. *)
Theorem failed_update_is_counted env w todo_id oid todo_update existing :
  ObjectId_of todo_id = inr oid →
  coll_find_one (VOid oid) (todos_collection w) = Some existing →
  prior_completed existing = false →
  TodoUpdate.completed todo_update = Some true →
  fault env (length (calls w)) = false →
  fault env (S (length (calls w))) = true →
  let r := app (PUT_todos todo_id todo_update) env w in
  r.1 = http_error 500 "Failed to update todo" ∧
  todos_completed (REGISTRY r.2) = S (todos_completed (REGISTRY w)) ∧
  todos_collection r.2 = todos_collection w.
Proof.
  intros Hid Hfind Hprior Hc Hf0 Hf1. cbn [app].
  rewrite (update_todo_run _ _ _ _ _ Hid). cbv zeta.
  rewrite Hf0, Hfind, update_dict_empty_b, update_dict_sets_completed, Hprior.
  unfold supplies_fields. rewrite Hc, orb_true_r.
  rewrite bool_decide_eq_true_2 by done.
  cbn [negb andb calls with_registry log_call]. rewrite length_snoc, Hf1. done.
Qed.

Lemma failed_update_is_counted_witness :
  let env := Sample.failing 9 in
  let r := app (PUT_todos Sample.id1 Sample.complete) env Sample.two_todos in
  ObjectId_of Sample.id1 = inr (Oid Sample.id1) ∧
  (∃ existing,
      coll_find_one (VOid (Oid Sample.id1)) (todos_collection Sample.two_todos)
        = Some existing ∧
      prior_completed existing = false) ∧
  TodoUpdate.completed Sample.complete = Some true ∧
  fault env (length (calls Sample.two_todos)) = false ∧
  fault env (S (length (calls Sample.two_todos))) = true ∧
  r.1 = http_error 500 "Failed to update todo" ∧
  todos_completed (REGISTRY r.2) = S (todos_completed (REGISTRY Sample.two_todos)) ∧
  todos_collection r.2 = todos_collection Sample.two_todos.
Proof.
  cbv zeta. split; [reflexivity|].
  split; [eexists; split; reflexivity|].
  split; [reflexivity|]. split; [reflexivity|]. split; [reflexivity|].
  eapply (failed_update_is_counted (Sample.failing 9) Sample.two_todos Sample.id1
            (Oid Sample.id1) Sample.complete); reflexivity.
Defined.

(** ** C6 *)

(** C6, amended.  Every successful create, delete, or update whose body
    supplies at least one field issues a count query against the storage
    layer before the handler returns and, unless that query raises,
    publishes its result to the active-item gauge.  A successful PUT whose
    body supplies no field returns the unchanged item with status 200 after
    the look-up alone: it issues no count query and leaves the registry as
    it was. *)
Theorem mutations_recount env w r resp w' :
  app r env w = (resp, w') →
  status_code resp = success_status r →
  (changes_collection r = true → recounts env w w') ∧
  (∀ todo_id u, r = PUT_todos todo_id u → supplies_fields u = false →
     ∃ oid existing j,
       ObjectId_of todo_id = inr oid ∧
       coll_find_one (VOid oid) (todos_collection w) = Some existing ∧
       serialize_todo (Some existing) = inr j ∧
       resp = ok j ∧
       w' = log_call (FindOne (VOid oid)) w).
Proof.
  intros Happ Hst. split.
  - intros Hch. destruct r; try done; cbn [app success_status changes_collection] in *.
    + rewrite create_todo_run in Happ. cbv zeta in Happ.
      destruct (fault env _); [by injection Happ as <- <-|].
      destruct (coll_find_one _ _); [by injection Happ as <- <-|].
      destruct (fault env _); [by injection Happ as <- <-|].
      injection Happ as <- <-. rewrite update_active_todos_count_run.
      apply (recounts_intro _ _ _ (S (length (calls w)))); [lia| |].
      * cbn. rewrite <- !app_assoc. apply lookup_after1.
      * cbn. rewrite length_snoc. by intros ->.
    + destruct (ObjectId_of_cases todo_id) as [[Hm _]|[_ [oid Hid]]].
      { rewrite update_todo_malformed in Happ by done. by injection Happ as <- <-. }
      rewrite (update_todo_run _ _ _ _ _ Hid) in Happ. cbv zeta in Happ.
      destruct (fault env _); [by injection Happ as <- <-|].
      destruct (coll_find_one _ _) as [existing|]; [|by injection Happ as <- <-].
      rewrite update_dict_empty_b, Hch in Happ. cbn [negb] in Happ.
      destruct (fault env _); [by injection Happ as <- <-|].
      destruct (fault env _); [by injection Happ as <- <-|].
      rewrite update_active_todos_count_run in Happ.
      destruct (serialize_todo _); injection Happ as <- <-; [done|].
      apply (recounts_intro _ _ _ (S (S (S (length (calls w)))))); [lia| |].
      * destruct (_ && _); cbn; rewrite <- !app_assoc; apply lookup_after3.
      * destruct (_ && _); cbn; rewrite !length_snoc; by intros ->.
    + destruct (ObjectId_of_cases todo_id) as [[Hm _]|[_ [oid Hid]]].
      { rewrite delete_todo_malformed in Happ by done. by injection Happ as <- <-. }
      rewrite (delete_todo_run _ _ _ _ Hid) in Happ. cbv zeta in Happ.
      destruct (fault env _); [by injection Happ as <- <-|].
      destruct (coll_find_one _ _); [|by injection Happ as <- <-].
      injection Happ as <- <-. rewrite update_active_todos_count_run.
      apply (recounts_intro _ _ _ (S (length (calls w)))); [lia| |].
      * cbn. rewrite <- !app_assoc. apply lookup_after1.
      * cbn. rewrite length_snoc. by intros ->.
  - intros todo_id u -> Hsup. cbn [app success_status] in *.
    destruct (ObjectId_of_cases todo_id) as [[Hm _]|[_ [oid Hid]]].
    { rewrite update_todo_malformed in Happ by done. by injection Happ as <- <-. }
    rewrite (update_todo_run _ _ _ _ _ Hid) in Happ. cbv zeta in Happ.
    destruct (fault env _); [by injection Happ as <- <-|].
    destruct (coll_find_one _ _) as [existing|] eqn:Hfind;
      [|by injection Happ as <- <-].
    rewrite update_dict_empty_b, Hsup in Happ. cbn [negb] in Happ.
    destruct (serialize_todo _) as [|j] eqn:Hj; injection Happ as <- <-; [done|].
    by exists oid, existing, j.
Qed.

Lemma mutations_recount_witness :
  let r := PUT_todos Sample.id1 Sample.complete in
  let out := app r Sample.env Sample.two_todos in
  status_code out.1 = success_status r ∧
  changes_collection r = true ∧
  recounts Sample.env Sample.two_todos out.2.
Proof.
  cbv zeta. split; [reflexivity|]. split; [reflexivity|].
  apply (mutations_recount Sample.env Sample.two_todos
           (PUT_todos Sample.id1 Sample.complete) _ _ (surjective_pairing _)
           eq_refl).
  reflexivity.
Defined.

(** C6 as stated fails: a PUT that supplies no field succeeds without a
    count query. *)
Lemma put_without_fields_does_not_recount :
  ¬ recounts_on_success Sample.env Sample.two_todos
      (PUT_todos Sample.id1 Sample.nothing).
Proof.
  intros H. apply recounts_issues_count in H; [|reflexivity].
  vm_compute in H. discriminate H.
Qed.

(** ** C7 *)

(** C7, as the code has it.  Whatever requests were handled since
    start-up, the request-duration histogram has no child and no
    observation, because no route is wrapped in the timing decorator; the
    GET /metrics body still contains the name
    http_request_duration_seconds, from the HELP and TYPE lines. *)
Theorem no_request_is_observed env c rs :
  let w := serve env rs (lifespan_startup env (boot c)).2 in
  http_request_duration (REGISTRY w) = ∅ ∧
  observations (REGISTRY w) = 0 ∧
  ∃ text, (app GET_metrics env w).1 = {| status_code := 200; body := PlainText text |} ∧
          contains "http_request_duration_seconds" text = true.
Proof.
  cbv zeta.
  assert (http_request_duration
            (REGISTRY (serve env rs (lifespan_startup env (boot c)).2)) = ∅) as H.
  { by rewrite serve_histogram, startup_histogram. }
  split; [done|]. split.
  - unfold observations. by rewrite H, map_to_list_empty.
  - eexists. split; [done|]. apply generate_latest_names_histogram.
Qed.

(** The whole exposition after a health check and a listing. *)
Example metrics_after_requests :
  body (app GET_metrics Sample.env
          (serve Sample.env [GET_health; GET_todos] Sample.started)).1
  = PlainText
      ("# HELP http_request_duration_seconds Duration of HTTP requests in seconds" +:+ nl +:+
       "# TYPE http_request_duration_seconds histogram" +:+ nl +:+
       "# HELP todos_created_total Total number of todos created" +:+ nl +:+
       "# TYPE todos_created_total counter" +:+ nl +:+
       "todos_created_total 0.0" +:+ nl +:+
       "# HELP todos_deleted_total Total number of todos deleted" +:+ nl +:+
       "# TYPE todos_deleted_total counter" +:+ nl +:+
       "todos_deleted_total 0.0" +:+ nl +:+
       "# HELP todos_completed_total Total number of todos marked as completed" +:+ nl +:+
       "# TYPE todos_completed_total counter" +:+ nl +:+
       "todos_completed_total 0.0" +:+ nl +:+
       "# HELP active_todos_count Current number of active (incomplete) todos" +:+ nl +:+
       "# TYPE active_todos_count gauge" +:+ nl +:+
       "active_todos_count 0.0" +:+ nl +:+
       "# HELP db_errors_total Total number of database errors" +:+ nl +:+
       "# TYPE db_errors_total counter" +:+ nl +:+
       "# HELP mongo_connections_active MongoDB connection status (1=connected, 0=disconnected)" +:+ nl +:+
       "# TYPE mongo_connections_active gauge" +:+ nl +:+
       "mongo_connections_active 1.0" +:+ nl).
Proof. reflexivity. Qed.

(** Had a route been wrapped, its requests would be observed. *)
Example a_wrapped_route_is_observed :
  observations
    (REGISTRY (respond 200 (track_request_time "GET" "/health" 200 health_check)
                 Sample.env Sample.started).2) = 1.
Proof. reflexivity. Qed.

(** ** C8 *)




(** The amendment gives up nothing of the format the specification
    names: every fixed-length hex string is accepted, upper-case digits
    included. *)
Example upper_case_id_is_accepted :
  fixed_length_hex "0011223344556677AABBCCDD" = true ∧
  ObjectId_of "0011223344556677AABBCCDD" = inr (Oid "0011223344556677aabbccdd").
Proof. split; reflexivity. Qed.

(** ** C9 *)

(** C9, amended.  For every POST /todos with a valid body, either a storage
    operation of the handler fails and the answer is 500, or the answer is
    201 and the completed field of the created item, in the answer and in
    the collection, is false, whatever the body supplied. *)
Theorem create_forces_uncompleted env w todo :
  if create_fails env w then
    (app (POST_todos todo) env w).1 = http_error 500 "Failed to create todo"
  else
    created_uncompleted env w todo ∧
    ∃ doc, todos_collection (app (POST_todos todo) env w).2
             = todos_collection w ++ [doc] ∧
           doc !! "completed" = Some (VBool false).
Proof.
  unfold create_fails, created_uncompleted. cbn [app].
  rewrite create_todo_run. cbv zeta.
  destruct (fault env (length (calls w))); [done|].
  destruct (coll_find_one _ _) eqn:Hfind.
  { by rewrite bool_decide_eq_true_2. }
  rewrite bool_decide_eq_false_2 by (by intros []).
  rewrite update_active_todos_count_run. cbn [calls with_registry log_call with_collection snd].
  rewrite !length_snoc. cbn [orb].
  destruct (fault env _); [done|].
  split; [by eexists|]. eexists. split; [done|].
  by rewrite lookup_insert_ne, lookup_insert_eq.
Qed.

Lemma create_forces_uncompleted_witness :
  create_fails Sample.env Sample.started = false ∧
  TodoCreate.completed Sample.todo1 = true ∧
  created_uncompleted Sample.env Sample.started Sample.todo1.
Proof.
  split; [reflexivity|]. split; [reflexivity|].
  pose proof (create_forces_uncompleted Sample.env Sample.started Sample.todo1) as H.
  change (create_fails Sample.env Sample.started) with false in H.
  exact (proj1 H).
Defined.

(** C9 as stated fails: when the insert raises, the answer is not 201. *)
Lemma create_can_fail :
  ¬ created_uncompleted (Sample.failing 2) Sample.started Sample.todo1.
Proof. intros (j & H & _). discriminate H. Qed.

(** ** C10 *)

(** C10.  When a create, update or delete has a document to act on and
    every storage call of the handler succeeds except the count query,
    which raises, the handler still answers with its success status (201
    for create, 200 for update and delete), the db_errors counter labelled
    operation="count" is incremented and the active_todos gauge keeps its
    previous value. *)
Theorem count_failure_is_tolerated env w r resp w' :
  app r env w = (resp, w') →
  mutation_applies env w r →
  only_count_fails env w w' →
  status_code resp = success_status r ∧
  db_errors_of "count" (REGISTRY w') = S (db_errors_of "count" (REGISTRY w)) ∧
  active_todos (REGISTRY w') = active_todos (REGISTRY w).
Proof.
  intros Happ Hap Hlog.
  pose proof (λ new c, only_count_fails_at env w w' new 0 c Hlog) as H0.
  pose proof (λ new c, only_count_fails_at env w w' new 1 c Hlog) as H1.
  pose proof (λ new c, only_count_fails_at env w w' new 2 c Hlog) as H2.
  pose proof (λ new c, only_count_fails_at env w w' new 3 c Hlog) as H3.
  cbn [Nat.add] in H0, H1, H2, H3. clear Hlog.
  destruct r as [| | | | |todo|todo_id u|todo_id]; try done;
    cbn [app success_status mutation_applies] in *.
  - rewrite create_todo_run in Happ. cbv zeta in Happ. rewrite Hap in Happ.
    rewrite update_active_todos_count_run in Happ.
    cbn [calls with_registry log_call with_collection snd] in Happ.
    rewrite !length_snoc in Happ.
    destruct (fault env (length (calls w))) eqn:F0;
      [injection Happ as <- <-; by use_log H0|].
    destruct (fault env (S (S (length (calls w))))) eqn:F2;
      [injection Happ as <- <-; by use_log H2|].
    destruct (fault env (S (length (calls w)))) eqn:F1; injection Happ as <- <-;
      [|by use_log H1].
    unfold db_errors_of. cbn. by rewrite lookup_insert_eq.
  - destruct Hap as (oid & existing & Hid & Hfind & Hsup & Htitle).
    rewrite (update_todo_run _ _ _ _ _ Hid) in Happ. cbv zeta in Happ.
    rewrite Hfind, update_dict_empty_b, Hsup in Happ. cbn [negb] in Happ.
    rewrite update_active_todos_count_run in Happ.
    assert (∃ j, serialize_todo
                   (coll_find_one (VOid oid)
                      (coll_update_one (VOid oid) (without_none (TodoUpdate.dict u))
                         (todos_collection w))) = inr j) as [j Hj].
    { rewrite coll_find_one_update, Hfind.
      2:{ rewrite update_dict_lookup. by repeat case_bool_decide. }
      apply serialize_with_title.
      - rewrite lookup_union_r.
        + rewrite (coll_find_one_has_id _ _ _ Hfind). by eexists.
        + rewrite update_dict_lookup. by repeat case_bool_decide.
      - apply lookup_union_is_Some. rewrite update_dict_lookup.
        rewrite bool_decide_eq_true_2 by done.
        destruct Htitle as [?|[t ->]]; [by right|left; by eexists]. }
    destruct (_ && _);
      cbn [calls todos_collection with_registry log_call with_collection snd] in Happ;
      rewrite !length_snoc, Hj in Happ.
    all: destruct (fault env (length (calls w))) eqn:F0;
      [injection Happ as <- <-; by use_log H0|].
    all: destruct (fault env (S (length (calls w)))) eqn:F1;
      [injection Happ as <- <-; by use_log H1|].
    all: destruct (fault env (S (S (length (calls w))))) eqn:F2;
      [injection Happ as <- <-; by use_log H2|].
    all: destruct (fault env (S (S (S (length (calls w)))))) eqn:F3;
      injection Happ as <- <-; [|by use_log H3].
    all: unfold db_errors_of; cbn; by rewrite lookup_insert_eq.
  - destruct Hap as (oid & Hid & [d Hfind]).
    rewrite (delete_todo_run _ _ _ _ Hid) in Happ. cbv zeta in Happ.
    rewrite Hfind in Happ. rewrite update_active_todos_count_run in Happ.
    cbn [calls with_registry log_call with_collection snd] in Happ.
    rewrite !length_snoc in Happ.
    destruct (fault env (length (calls w))) eqn:F0;
      [injection Happ as <- <-; by use_log H0|].
    destruct (fault env (S (length (calls w)))) eqn:F1; injection Happ as <- <-;
      [|by use_log H1].
    unfold db_errors_of. cbn. by rewrite lookup_insert_eq.
Qed.

Lemma count_failure_is_tolerated_witness :
  let env := Sample.failing 11 in
  let r := PUT_todos Sample.id1 Sample.complete in
  let out := app r env Sample.two_todos in
  mutation_applies env Sample.two_todos r ∧
  only_count_fails env Sample.two_todos out.2 ∧
  status_code out.1 = success_status r ∧
  db_errors_of "count" (REGISTRY out.2)
    = S (db_errors_of "count" (REGISTRY Sample.two_todos)) ∧
  active_todos (REGISTRY out.2) = active_todos (REGISTRY Sample.two_todos).
Proof.
  cbv zeta.
  assert (mutation_applies (Sample.failing 11) Sample.two_todos
            (PUT_todos Sample.id1 Sample.complete)) as Ha.
  { eexists _, _. split; [reflexivity|]. split; [reflexivity|].
    split; [reflexivity|]. left. eexists. reflexivity. }
  assert (only_count_fails (Sample.failing 11) Sample.two_todos
            (app (PUT_todos Sample.id1 Sample.complete) (Sample.failing 11)
               Sample.two_todos).2) as Hl.
  { apply faults_match_only_count. vm_compute. reflexivity. }
  split; [exact Ha|]. split; [exact Hl|].
  exact (count_failure_is_tolerated _ _ _ _ _ (surjective_pairing _) Ha Hl).
Defined.

(** * Further properties *)

Lemma health_check_run env w :
  respond 200 health_check env w =
  ({| status_code := 200; body := JObject {["status" := VStr "ok"]} |}, w).
Proof. reflexivity. Qed.

Lemma live_run env w :
  respond 200 live env w =
  ({| status_code := 200; body := JObject {["status" := VStr "alive"]} |}, w).
Proof. reflexivity. Qed.

Lemma metrics_run env w :
  respond 200 metrics env w =
  ({| status_code := 200; body := PlainText (generate_latest (REGISTRY w)) |}, w).
Proof. reflexivity. Qed.

(** Case analysis on what the request in the goal did. *)
Ltac run_route :=
  let Hid := fresh "Hid" in
  cbn [app];
  try match goal with
    | |- context [respond 200 health_check _ _] => rewrite health_check_run
    | |- context [respond 200 live _ _] => rewrite live_run
    | |- context [respond 200 metrics _ _] => rewrite metrics_run
    | |- context [respond 200 ready _ _] => rewrite ready_run
    | |- context [respond 200 get_todos _ _] => rewrite get_todos_run
    | |- context [respond 201 (create_todo _) _ _] => rewrite create_todo_run
    | |- context [update_todo ?i _] =>
        destruct (ObjectId_of_cases i) as [[Hid _]|[_ [?oid Hid]]];
        [rewrite update_todo_malformed by exact Hid
        |rewrite (update_todo_run _ _ _ _ _ Hid)]
    | |- context [delete_todo ?i] =>
        destruct (ObjectId_of_cases i) as [[Hid _]|[_ [?oid Hid]]];
        [rewrite delete_todo_malformed by exact Hid
        |rewrite (delete_todo_run _ _ _ _ Hid)]
    end;
  cbv zeta;
  repeat match goal with
    | |- context [update_active_todos_count ?e ?w] =>
        rewrite (update_active_todos_count_run e w)
    | |- context [fault ?e ?n] => destruct (fault e n) eqn:?
    | |- context [match coll_find_one ?v ?c with _ => _ end] =>
        destruct (coll_find_one v c) eqn:?
    | |- context [match serialize_todo ?t with _ => _ end] =>
        destruct (serialize_todo t) eqn:?
    | |- context [match serialize_all ?t with _ => _ end] =>
        destruct (serialize_all t) eqn:?
    | |- context [if bool_decide ?P then _ else _] =>
        destruct (bool_decide P) eqn:?
    | |- context [if ?a && ?b then _ else _] =>
        destruct (a && b) eqn:?
    end;
  cbn [fst snd REGISTRY todos_collection calls clock_reads
       with_registry with_collection log_call].

(** ** Statuses *)

(** X1.  Every route answers with one of its own statuses: 200 for the probes and
    the exposition, 200 or 503 for readiness, 200 or 500 for the listing,
    201 or 500 for create, 200, 400 or 500 for update and delete.  No route
    answers 404. *)
Theorem answers_have_route_statuses env r w :
  status_code (app r env w).1 ∈ statuses r.
Proof.
  destruct r; run_route;
    cbn [fst status_code http_error internal_server_error ok statuses];
    repeat constructor.
Qed.

(** ** Counters *)

(** X2.  A todos route answers with its own 500 "Failed to ..." message exactly
    when it adds one to db_errors under its own operation label (find,
    create, update, delete); with any other answer that counter is
    unchanged. *)
Theorem storage_errors_are_recorded env r w op :
  operation_label r = Some op →
  let out := app r env w in
  (out.1 = failure_answer r ∧
   db_errors_of op (REGISTRY out.2) = S (db_errors_of op (REGISTRY w))) ∨
  (out.1 ≠ failure_answer r ∧
   db_errors_of op (REGISTRY out.2) = db_errors_of op (REGISTRY w)).
Proof.
  intros Hop. cbv zeta.
  destruct r; try discriminate Hop; injection Hop as <-; run_route.
  all: cbn [failure_answer].
  all: unfold db_errors_of, inc_db_errors, set_active_todos, inc_todos_created,
         inc_todos_deleted, inc_todos_completed, db_errors_of; cbn [db_errors].
  all: rewrite ?lookup_insert_eq, ?lookup_insert_ne by discriminate.
  all: first [left; split; [reflexivity|]; cbn [default]; reflexivity
             |right; split; [discriminate|reflexivity] ].
Qed.

Lemma storage_errors_are_recorded_witness :
  let r := GET_todos in
  let out := app r (Sample.failing 8) Sample.two_todos in
  operation_label r = Some "find" ∧
  ((out.1 = failure_answer r ∧
    db_errors_of "find" (REGISTRY out.2)
      = S (db_errors_of "find" (REGISTRY Sample.two_todos))) ∨
   (out.1 ≠ failure_answer r ∧
    db_errors_of "find" (REGISTRY out.2)
      = db_errors_of "find" (REGISTRY Sample.two_todos))).
Proof.
  cbv zeta. split; [reflexivity|].
  apply (storage_errors_are_recorded (Sample.failing 8) GET_todos Sample.two_todos).
  reflexivity.
Defined.

Lemma coll_update_one_length v upd c :
  length (coll_update_one v upd c) = length c.
Proof.
  induction c as [|d c IH]; [done|]. cbn [coll_update_one].
  destruct (has_id v d); cbn [length]; congruence.
Qed.

Lemma coll_delete_one_length v c d :
  coll_find_one v c = Some d → S (length (coll_delete_one v c)) = length c.
Proof.
  induction c as [|d' c IH]; [done|]. cbn [coll_find_one coll_delete_one].
  destruct (has_id v d'); [done|]. intros H. cbn [length]. by rewrite IH.
Qed.

Lemma db_errors_of_inc op op' r :
  db_errors_of op (inc_db_errors op' r) =
  if bool_decide (op' = op) then S (db_errors_of op r) else db_errors_of op r.
Proof.
  unfold db_errors_of, inc_db_errors. cbn [db_errors].
  case_bool_decide as H.
  - subst. by rewrite lookup_insert_eq.
  - by rewrite lookup_insert_ne.
Qed.

Lemma db_errors_of_set_active op n r :
  db_errors_of op (set_active_todos n r) = db_errors_of op r.
Proof. reflexivity. Qed.

Lemma db_errors_of_created op r :
  db_errors_of op (inc_todos_created r) = db_errors_of op r.
Proof. reflexivity. Qed.

Lemma db_errors_of_deleted op r :
  db_errors_of op (inc_todos_deleted r) = db_errors_of op r.
Proof. reflexivity. Qed.

Lemma db_errors_of_completed op r :
  db_errors_of op (inc_todos_completed r) = db_errors_of op r.
Proof. reflexivity. Qed.

Lemma app_conserves_items env r w :
  let w' := (app r env w).2 in
  length (todos_collection w') + todos_deleted (REGISTRY w')
    + todos_created (REGISTRY w)
  = length (todos_collection w) + todos_deleted (REGISTRY w)
    + todos_created (REGISTRY w').
Proof.
  cbv zeta. destruct r; run_route; try reflexivity.
  all: unfold inc_db_errors, set_active_todos, inc_todos_created,
         inc_todos_deleted, inc_todos_completed;
       cbn [todos_created todos_deleted].
  all: rewrite ?length_app, ?coll_update_one_length; cbn [length]; try lia.
  all: try (erewrite <- (coll_delete_one_length _ (todos_collection w)) by eassumption; lia).
  all: try (rewrite coll_delete_one_absent by assumption; lia).
Qed.

Lemma serve_cons env r rs w :
  serve env (r :: rs) w = serve env rs (app r env w).2.
Proof. reflexivity. Qed.

(** X3.  Over any sequence of requests, whatever fails, the number of documents
    grows by the increase of todos_created and shrinks by the increase of
    todos_deleted: documents + deleted - created stays the same. *)
Theorem items_are_conserved env rs w :
  let w' := serve env rs w in
  length (todos_collection w') + todos_deleted (REGISTRY w')
    + todos_created (REGISTRY w)
  = length (todos_collection w) + todos_deleted (REGISTRY w)
    + todos_created (REGISTRY w').
Proof.
  cbv zeta. revert w. induction rs as [|r rs IH]; intros w; [done|].
  rewrite serve_cons.
  pose proof (IH (app r env w).2) as H1.
  pose proof (app_conserves_items env r w) as H2. cbv zeta in H2. clear IH.
  revert H1 H2.
  generalize (serve env rs (app r env w).2) (app r env w).2. intros w2 w1. lia.
Qed.

Lemma app_counters_grow env r w op :
  let w' := (app r env w).2 in
  todos_created (REGISTRY w) ≤ todos_created (REGISTRY w') ∧
  todos_deleted (REGISTRY w) ≤ todos_deleted (REGISTRY w') ∧
  todos_completed (REGISTRY w) ≤ todos_completed (REGISTRY w') ∧
  db_errors_of op (REGISTRY w) ≤ db_errors_of op (REGISTRY w').
Proof.
  cbv zeta. destruct r; run_route.
  all: repeat rewrite ?db_errors_of_inc, ?db_errors_of_set_active,
         ?db_errors_of_created, ?db_errors_of_deleted, ?db_errors_of_completed.
  all: unfold set_active_todos, inc_todos_created,
         inc_todos_deleted, inc_todos_completed, inc_db_errors;
       cbn [todos_created todos_deleted todos_completed].
  all: repeat case_bool_decide; repeat split; lia.
Qed.

(** X4.  Over any sequence of requests the counters todos_created, todos_deleted,
    todos_completed and every db_errors child never decrease. *)
Theorem counters_never_decrease env rs w op :
  let w' := serve env rs w in
  todos_created (REGISTRY w) ≤ todos_created (REGISTRY w') ∧
  todos_deleted (REGISTRY w) ≤ todos_deleted (REGISTRY w') ∧
  todos_completed (REGISTRY w) ≤ todos_completed (REGISTRY w') ∧
  db_errors_of op (REGISTRY w) ≤ db_errors_of op (REGISTRY w').
Proof.
  cbv zeta. revert w. induction rs as [|r rs IH]; intros w; [done|].
  rewrite serve_cons.
  pose proof (IH (app r env w).2) as H1.
  pose proof (app_counters_grow env r w op) as H2. cbv zeta in H2. lia.
Qed.

(** ** Documents the application keeps *)

Lemma coll_find_one_None v c :
  coll_find_one v c = None ↔ Some v ∉ ids c.
Proof.
  unfold ids. induction c as [|d c IH]; cbn [coll_find_one map].
  - split; [intros _; apply not_elem_of_nil | done].
  - unfold has_id. case_bool_decide as Hd.
    + split; [done|]. intros []. rewrite Hd. apply list_elem_of_here.
    + rewrite IH, not_elem_of_cons. split; [|by intros [_ ?]].
      intros H. split; [congruence|done].
Qed.

Lemma coll_find_one_elem v c d :
  coll_find_one v c = Some d → d ∈ c.
Proof.
  induction c as [|d' c IH]; [done|]. cbn [coll_find_one].
  destruct (has_id v d').
  - intros [= ->]. apply list_elem_of_here.
  - intros H. apply list_elem_of_further. by apply IH.
Qed.

Lemma ids_update v upd c :
  upd !! "_id" = None → ids (coll_update_one v upd c) = ids c.
Proof.
  intros Hupd. unfold ids. induction c as [|d c IH]; [done|].
  cbn [coll_update_one]. destruct (has_id v d); cbn [map]; [|by rewrite IH].
  by rewrite lookup_union_r.
Qed.

Lemma ids_delete_sublist v c : sublist (ids (coll_delete_one v c)) (ids c).
Proof.
  unfold ids. induction c as [|d c IH]; [done|]. cbn [coll_delete_one].
  destruct (has_id v d); cbn [map].
  - by apply sublist_cons.
  - by apply sublist_skip.
Qed.

Lemma valid_item_serializable d :
  valid_item d = true → is_Some (d !! "_id") ∧ is_Some (d !! "title").
Proof.
  unfold valid_item. destruct (d !! "_id"), (d !! "title"); done.
Qed.

Lemma valid_item_updated u d :
  valid_item d = true →
  valid_item (without_none (TodoUpdate.dict u) ∪ d) = true.
Proof.
  unfold valid_item. intros H.
  rewrite (lookup_union_r _ _ "_id")
    by (rewrite update_dict_lookup; by repeat case_bool_decide).
  destruct (d !! "_id"); [|done].
  assert (∃ t, (without_none (TodoUpdate.dict u) ∪ d) !! "title" = Some (VStr t))
    as [t ->].
  { rewrite lookup_union, update_dict_lookup.
    rewrite bool_decide_eq_true_2 by done.
    destruct (TodoUpdate.title u), (d !! "title") as [[]|]; try done;
      by eexists. }
  assert (∃ b, (without_none (TodoUpdate.dict u) ∪ d) !! "completed" = Some (VBool b))
    as [b ->]; [|done].
  rewrite lookup_union, update_dict_lookup.
  rewrite bool_decide_eq_false_2, bool_decide_eq_false_2, bool_decide_eq_true_2
    by done.
  destruct (TodoUpdate.completed u), (d !! "title") as [[]|],
    (d !! "completed") as [[]|]; try done; by eexists.
Qed.

Lemma Forall_update_one (P : dict → Prop) v upd c :
  (∀ d, P d → P (upd ∪ d)) → Forall P c → Forall P (coll_update_one v upd c).
Proof.
  intros HP. induction 1 as [|d c Hd Hc IH]; [constructor|].
  cbn [coll_update_one]. destruct (has_id v d); constructor; auto.
Qed.

Lemma Forall_delete_one (P : dict → Prop) v c :
  Forall P c → Forall P (coll_delete_one v c).
Proof.
  induction 1 as [|d c Hd Hc IH]; [constructor|].
  cbn [coll_delete_one]. destruct (has_id v d); [done|by constructor].
Qed.

Lemma well_kept_insert c id doc :
  well_kept c → coll_find_one id c = None → doc !! "_id" = Some id →
  valid_item doc = true → well_kept (c ++ [doc]).
Proof.
  intros [Hnd Hv] Hnew Hid Hdoc. split.
  - unfold ids. rewrite map_app. cbn [map]. rewrite Hid.
    apply NoDup_app. split; [done|]. split; [|apply NoDup_singleton].
    intros x Hx ->%list_elem_of_singleton. by apply coll_find_one_None in Hnew.
  - apply Forall_app. split; [done|]. by constructor.
Qed.

Lemma well_kept_update c v u :
  well_kept c → well_kept (coll_update_one v (without_none (TodoUpdate.dict u)) c).
Proof.
  intros [Hnd Hv]. split.
  - rewrite ids_update; [done|].
    rewrite update_dict_lookup. by repeat case_bool_decide.
  - apply Forall_update_one; [|done]. intros d. apply valid_item_updated.
Qed.

Lemma well_kept_delete c v : well_kept c → well_kept (coll_delete_one v c).
Proof.
  intros [Hnd Hv]. split.
  - eapply sublist_NoDup; [done|apply ids_delete_sublist].
  - by apply Forall_delete_one.
Qed.

Lemma created_doc_valid id todo :
  valid_item (<["_id" := id]> (<["completed" := VBool false]> (TodoCreate.dict todo)))
  = true.
Proof. reflexivity. Qed.

Lemma app_well_kept env r w :
  well_kept (todos_collection w) → well_kept (todos_collection (app r env w).2).
Proof.
  intros H. destruct r; run_route; try exact H.
  all: try (apply well_kept_update; exact H).
  all: try (apply well_kept_delete; exact H).
  all: apply (well_kept_insert _ (VOid (new_oid env (length (calls w)))));
    [exact H|assumption|apply lookup_insert_eq|apply created_doc_valid].
Qed.

Lemma serve_well_kept env rs w :
  well_kept (todos_collection w) →
  well_kept (todos_collection (serve env rs w)).
Proof.
  revert w. induction rs as [|r rs IH]; intros w H; [done|].
  rewrite serve_cons. by apply IH, app_well_kept.
Qed.

(** ** GET /todos *)

Lemma serialize_all_serializable c :
  Forall (λ d : dict, is_Some (d !! "_id") ∧ is_Some (d !! "title")) c →
  ∃ js, serialize_all c = inr js ∧
        Forall2 (λ d j, serialize_todo (Some d) = inr j) c js.
Proof.
  induction 1 as [|d c [Hid Ht] Hc (js & Hjs & Hall)].
  - exists []. split; [done|constructor].
  - destruct (serialize_with_title d Hid Ht) as [j Hj].
    exists (j :: js). cbn [serialize_all]. rewrite Hj, Hjs.
    split; [done|by constructor].
Qed.

Lemma serialize_all_unserializable c d :
  d ∈ c → d !! "_id" = None ∨ d !! "title" = None →
  ∃ e, serialize_all c = inl e.
Proof.
  intros Hd Hbad. induction c as [|d' c IH]; [by apply elem_of_nil in Hd|].
  cbn [serialize_all]. destruct (serialize_todo (Some d')) as [e|j] eqn:Hs.
  { by exists e. }
  apply elem_of_cons in Hd as [->|Hd].
  - unfold serialize_todo in Hs.
    destruct Hbad as [H|H]; rewrite H in Hs; [done|].
    by destruct (d' !! "_id").
  - destruct (IH Hd) as [e ->]. by exists e.
Qed.

(** X5.  When find succeeds and every document has an _id and a title, GET /todos
    answers 200 with the serialisation of each document, in the order of the
    collection, and changes nothing but the log of storage calls. *)
Theorem listing_serializes_every_document env w :
  fault env (length (calls w)) = false →
  Forall (λ d : dict, is_Some (d !! "_id") ∧ is_Some (d !! "title"))
    (todos_collection w) →
  ∃ js,
    app GET_todos env w
      = ({| status_code := 200; body := JArray js |}, log_call Find w) ∧
    Forall2 (λ d j, serialize_todo (Some d) = inr j) (todos_collection w) js.
Proof.
  intros Hf Hall. destruct (serialize_all_serializable _ Hall) as (js & Hjs & H2).
  exists js. split; [|done]. cbn [app]. by rewrite get_todos_run, Hf, Hjs.
Qed.

Lemma listing_serializes_every_document_witness :
  fault Sample.env (length (calls Sample.two_todos)) = false ∧
  Forall (λ d : dict, is_Some (d !! "_id") ∧ is_Some (d !! "title"))
    (todos_collection Sample.two_todos) ∧
  ∃ js,
    app GET_todos Sample.env Sample.two_todos
      = ({| status_code := 200; body := JArray js |}, log_call Find Sample.two_todos) ∧
    Forall2 (λ d j, serialize_todo (Some d) = inr j)
      (todos_collection Sample.two_todos) js.
Proof.
  assert (Forall (λ d : dict, is_Some (d !! "_id") ∧ is_Some (d !! "title"))
            (todos_collection Sample.two_todos)) as H.
  { apply (bool_decide_unpack _). vm_compute. exact I. }
  split; [reflexivity|]. split; [exact H|].
  exact (listing_serializes_every_document Sample.env Sample.two_todos eq_refl H).
Defined.

(** X6.  When find succeeds but one document lacks its _id or its title, GET
    /todos answers a plain 500 for the whole listing; no db error is
    recorded. *)
Theorem listing_fails_on_one_bad_document env w d :
  fault env (length (calls w)) = false →
  d ∈ todos_collection w →
  d !! "_id" = None ∨ d !! "title" = None →
  app GET_todos env w = (internal_server_error, log_call Find w).
Proof.
  intros Hf Hd Hbad. destruct (serialize_all_unserializable _ _ Hd Hbad) as [e He].
  cbn [app]. by rewrite get_todos_run, Hf, He.
Qed.

Lemma listing_fails_on_one_bad_document_witness :
  let d : dict := {["_id" := VOid (Oid Sample.id1)]} in
  let w := boot (todos_collection Sample.two_todos ++ [d]) in
  fault Sample.env (length (calls w)) = false ∧
  d ∈ todos_collection w ∧
  (d !! "_id" = None ∨ d !! "title" = None) ∧
  app GET_todos Sample.env w = (internal_server_error, log_call Find w).
Proof.
  cbv zeta. split; [reflexivity|].
  assert (({["_id" := VOid (Oid Sample.id1)]} : dict)
            ∈ todos_collection
                (boot (todos_collection Sample.two_todos
                         ++ [{["_id" := VOid (Oid Sample.id1)]}]))) as Hin.
  { cbn [todos_collection boot]. apply elem_of_app. right. apply list_elem_of_here. }
  split; [exact Hin|]. split; [right; reflexivity|].
  apply (listing_fails_on_one_bad_document Sample.env _ _ eq_refl Hin).
  right. reflexivity.
Defined.

(** X7.  A collection in which no two documents share an _id and every document
    has an _id, a text title and a boolean completed stays so over any
    sequence of requests, whatever fails; and then GET /todos answers 200
    with one item per document whenever find succeeds. *)
Theorem documents_stay_well_kept env rs w :
  well_kept (todos_collection w) →
  let w' := serve env rs w in
  well_kept (todos_collection w') ∧
  (fault env (length (calls w')) = false →
   ∃ js,
     (app GET_todos env w').1 = {| status_code := 200; body := JArray js |} ∧
     length js = length (todos_collection w')).
Proof.
  intros Hk. cbv zeta.
  pose proof (serve_well_kept env rs w Hk) as Hk'.
  split; [exact Hk'|]. intros Hf. destruct Hk' as [_ Hv].
  destruct (serialize_all_serializable (todos_collection (serve env rs w)))
    as (js & Hjs & Hall).
  { eapply Forall_impl; [exact Hv|]. intros d. apply valid_item_serializable. }
  exists js. cbn [app]. rewrite get_todos_run, Hf, Hjs.
  split; [reflexivity|]. symmetry. by eapply Forall2_length.
Qed.

Lemma documents_stay_well_kept_witness :
  let rs := [PUT_todos Sample.id1 Sample.rename; DELETE_todos Sample.id2;
             POST_todos Sample.todo1] in
  let w := serve Sample.env rs Sample.two_todos in
  well_kept (todos_collection Sample.two_todos) ∧
  fault Sample.env (length (calls w)) = false ∧
  well_kept (todos_collection w) ∧
  ∃ js,
    (app GET_todos Sample.env w).1 = {| status_code := 200; body := JArray js |} ∧
    length js = length (todos_collection w).
Proof.
  cbv zeta.
  assert (well_kept (todos_collection Sample.two_todos)) as H.
  { split; apply (bool_decide_unpack _); vm_compute; exact I. }
  split; [exact H|]. split; [reflexivity|].
  destruct (documents_stay_well_kept Sample.env
              [PUT_todos Sample.id1 Sample.rename; DELETE_todos Sample.id2;
               POST_todos Sample.todo1] Sample.two_todos H) as [Hk Hl].
  split; [exact Hk|]. exact (Hl eq_refl).
Defined.

(** ** Requests that are refused *)

Lemma serializable_updated u d :
  is_Some (d !! "_id") ∧ is_Some (d !! "title") →
  is_Some ((without_none (TodoUpdate.dict u) ∪ d) !! "_id") ∧
  is_Some ((without_none (TodoUpdate.dict u) ∪ d) !! "title").
Proof.
  intros [Hid Ht]. split; apply lookup_union_is_Some; by right.
Qed.

Lemma serialize_updated_ok c v u g :
  Forall (λ d : dict, is_Some (d !! "_id") ∧ is_Some (d !! "title")) c →
  coll_find_one v c = Some g →
  ∃ j, serialize_todo
         (coll_find_one v (coll_update_one v (without_none (TodoUpdate.dict u)) c))
       = inr j.
Proof.
  intros Hall Hfind. rewrite coll_find_one_update, Hfind
    by (rewrite update_dict_lookup; by repeat case_bool_decide).
  rewrite Forall_forall in Hall.
  destruct (serializable_updated u g) as [Ha Hb].
  { apply Hall. by eapply coll_find_one_elem. }
  by apply serialize_with_title.
Qed.

(** X8.  When every document has an _id and a title, a request that is answered
    400 has changed neither the collection nor the registry. *)
Theorem a_400_changes_nothing env r w :
  Forall (λ d : dict, is_Some (d !! "_id") ∧ is_Some (d !! "title"))
    (todos_collection w) →
  status_code (app r env w).1 = 400 →
  todos_collection (app r env w).2 = todos_collection w ∧
  REGISTRY (app r env w).2 = REGISTRY w.
Proof.
  intros Hall. destruct r; run_route;
    cbn [status_code http_error internal_server_error ok];
    intros Hst%Nat.eqb_eq; try discriminate Hst; clear Hst.
  all: try (split; reflexivity).
  all: try (split; [by apply coll_delete_one_absent|reflexivity]).
  all: exfalso.
  all: match goal with
    | Hf : coll_find_one ?v _ = Some ?g,
      Hs : serialize_todo (coll_find_one _ _) = inl _ |- _ =>
        cbn [todos_collection with_registry with_collection log_call] in Hs;
        destruct (serialize_updated_ok _ v todo_update g Hall Hf) as [j Hj];
        rewrite Hj in Hs; discriminate Hs
    end.
Qed.

Lemma a_400_changes_nothing_witness :
  let out := app (PUT_todos Sample.absent_id Sample.complete) Sample.env
               Sample.two_todos in
  Forall (λ d : dict, is_Some (d !! "_id") ∧ is_Some (d !! "title"))
    (todos_collection Sample.two_todos) ∧
  status_code out.1 = 400 ∧
  todos_collection out.2 = todos_collection Sample.two_todos ∧
  REGISTRY out.2 = REGISTRY Sample.two_todos.
Proof.
  cbv zeta.
  assert (Forall (λ d : dict, is_Some (d !! "_id") ∧ is_Some (d !! "title"))
            (todos_collection Sample.two_todos)) as H.
  { apply (bool_decide_unpack _). vm_compute. exact I. }
  split; [exact H|]. split; [reflexivity|].
  exact (a_400_changes_nothing Sample.env
           (PUT_todos Sample.absent_id Sample.complete) Sample.two_todos H eq_refl).
Defined.

(** ** POST, then the item *)

Lemma coll_find_one_app_old v c d :
  d !! "_id" ≠ Some v → coll_find_one v (c ++ [d]) = coll_find_one v c.
Proof.
  intros Hd. induction c as [|d' c IH]; simpl.
  - unfold has_id. by rewrite bool_decide_eq_false_2.
  - by rewrite IH.
Qed.

Lemma coll_delete_one_app_new v c d :
  coll_find_one v c = None → d !! "_id" = Some v →
  coll_delete_one v (c ++ [d]) = c.
Proof.
  intros Hc Hd. induction c as [|d' c IH]; simpl in *.
  - unfold has_id. by rewrite bool_decide_eq_true_2.
  - destruct (has_id v d'); [done|]. by rewrite IH.
Qed.

(** X9.  After a successful POST /todos the answer carries the generated
    identifier, which no document had before; looking that identifier up
    finds the new document, appended to the collection, with the title and
    description of the body and completed false; look-ups of other
    identifiers are unchanged. *)
Theorem created_item_can_be_found env w todo resp w' :
  app (POST_todos todo) env w = (resp, w') →
  status_code resp = 201 →
  ∃ oid doc,
    body resp = JObject (created_json (VOid oid) todo) ∧
    todos_collection w' = todos_collection w ++ [doc] ∧
    coll_find_one (VOid oid) (todos_collection w) = None ∧
    coll_find_one (VOid oid) (todos_collection w') = Some doc ∧
    doc !! "title" = Some (VStr (TodoCreate.title todo)) ∧
    doc !! "description" = Some (opt_str (TodoCreate.description todo)) ∧
    doc !! "completed" = Some (VBool false) ∧
    ∀ v, v ≠ VOid oid →
         coll_find_one v (todos_collection w') = coll_find_one v (todos_collection w).
Proof.
  cbn [app]. rewrite create_todo_run. cbv zeta. intros Happ Hst.
  destruct (fault env _); [by injection Happ as <- <-|].
  destruct (coll_find_one _ _) eqn:Hnew; [by injection Happ as <- <-|].
  destruct (fault env _); [by injection Happ as <- <-|].
  injection Happ as <- <-. eexists _, _.
  rewrite update_active_todos_count_run.
  cbn [body todos_collection with_registry with_collection log_call snd].
  split; [reflexivity|]. split; [reflexivity|]. split; [exact Hnew|].
  split; [by apply coll_find_one_app_new, lookup_insert_eq|].
  split; [reflexivity|]. split; [reflexivity|]. split; [reflexivity|].
  intros v Hv. apply coll_find_one_app_old. rewrite lookup_insert_eq. congruence.
Qed.

Lemma created_item_can_be_found_witness :
  let out := app (POST_todos Sample.todo2) Sample.env Sample.started in
  status_code out.1 = 201 ∧
  ∃ oid doc,
    body out.1 = JObject (created_json (VOid oid) Sample.todo2) ∧
    todos_collection out.2 = todos_collection Sample.started ++ [doc] ∧
    coll_find_one (VOid oid) (todos_collection Sample.started) = None ∧
    coll_find_one (VOid oid) (todos_collection out.2) = Some doc ∧
    doc !! "title" = Some (VStr (TodoCreate.title Sample.todo2)) ∧
    doc !! "description" = Some (opt_str (TodoCreate.description Sample.todo2)) ∧
    doc !! "completed" = Some (VBool false) ∧
    ∀ v, v ≠ VOid oid →
         coll_find_one v (todos_collection out.2)
         = coll_find_one v (todos_collection Sample.started).
Proof.
  cbv zeta. split; [reflexivity|].
  exact (created_item_can_be_found Sample.env Sample.started Sample.todo2 _ _
           (surjective_pairing _) eq_refl).
Defined.

(** X10.  When the driver's generated identifier is canonical, a DELETE of the id
    that a successful POST returned, with the delete call not raising,
    answers 200 and leaves the collection as it was before the POST. *)
Theorem create_then_delete_restores env w todo resp w1 j s :
  app (POST_todos todo) env w = (resp, w1) →
  status_code resp = 201 →
  body resp = JObject j →
  j !! "id" = Some (VStr s) →
  ObjectId_of (oid_str (new_oid env (length (calls w))))
    = inr (new_oid env (length (calls w))) →
  fault env (length (calls w1)) = false →
  status_code (app (DELETE_todos s) env w1).1 = 200 ∧
  todos_collection (app (DELETE_todos s) env w1).2 = todos_collection w.
Proof.
  cbn [app]. rewrite create_todo_run. cbv zeta.
  intros Happ Hst Hbody Hs Hcanon Hf.
  destruct (fault env _); [by injection Happ as <- <-|].
  destruct (coll_find_one _ _) eqn:Hnew; [by injection Happ as <- <-|].
  destruct (fault env _); [by injection Happ as <- <-|].
  injection Happ as <- <-. cbn [body] in Hbody.
  assert (j = created_json (VOid (new_oid env (length (calls w)))) todo)
    as -> by congruence.
  unfold created_json in Hs. rewrite lookup_insert_eq in Hs.
  assert (s = oid_str (new_oid env (length (calls w)))) as -> by (cbn in Hs; congruence).
  rewrite (delete_todo_run _ _ _ _ Hcanon). cbv zeta. rewrite Hf.
  rewrite update_active_todos_count_run.
  cbn [todos_collection with_registry with_collection log_call snd].
  rewrite (coll_find_one_app_new _ _ _ Hnew) by apply lookup_insert_eq.
  rewrite (coll_delete_one_app_new _ _ _ Hnew) by apply lookup_insert_eq.
  rewrite !update_active_todos_count_run. split; reflexivity.
Qed.

Lemma create_then_delete_restores_witness :
  let out := app (POST_todos Sample.todo1) Sample.env Sample.started in
  let j := created_json (VOid (Oid Sample.id1)) Sample.todo1 in
  status_code out.1 = 201 ∧
  body out.1 = JObject j ∧
  j !! "id" = Some (VStr Sample.id1) ∧
  ObjectId_of (oid_str (new_oid Sample.env (length (calls Sample.started))))
    = inr (new_oid Sample.env (length (calls Sample.started))) ∧
  fault Sample.env (length (calls out.2)) = false ∧
  status_code (app (DELETE_todos Sample.id1) Sample.env out.2).1 = 200 ∧
  todos_collection (app (DELETE_todos Sample.id1) Sample.env out.2).2
    = todos_collection Sample.started.
Proof.
  cbv zeta. do 5 (split; [reflexivity|]).
  exact (create_then_delete_restores Sample.env Sample.started Sample.todo1 _ _
           (created_json (VOid (Oid Sample.id1)) Sample.todo1) Sample.id1
           (surjective_pairing _) eq_refl eq_refl eq_refl eq_refl eq_refl).
Defined.

(** ** DELETE *)

Lemma coll_find_one_delete_other v v' c :
  v' ≠ v → coll_find_one v' (coll_delete_one v c) = coll_find_one v' c.
Proof.
  intros Hne. induction c as [|d c IH]; [done|].
  cbn [coll_delete_one coll_find_one].
  destruct (has_id v d) eqn:Hd; cbn [coll_find_one]; [|by rewrite IH].
  unfold has_id in *. apply bool_decide_eq_true in Hd.
  rewrite bool_decide_eq_false_2; [done|]. congruence.
Qed.

Lemma coll_find_one_delete_same v c :
  NoDup (ids c) → coll_find_one v (coll_delete_one v c) = None.
Proof.
  unfold ids. induction c as [|d c IH]; [done|]. cbn [map coll_delete_one].
  intros [Hd Hc]%NoDup_cons. destruct (has_id v d) eqn:Hv.
  - apply coll_find_one_None. unfold has_id in Hv.
    apply bool_decide_eq_true in Hv. by rewrite <- Hv.
  - cbn [coll_find_one]. rewrite Hv. by apply IH.
Qed.

Lemma delete_success env w todo_id resp w' :
  app (DELETE_todos todo_id) env w = (resp, w') →
  status_code resp = 200 →
  ∃ oid deleted,
    ObjectId_of todo_id = inr oid ∧
    coll_find_one (VOid oid) (todos_collection w) = Some deleted ∧
    todos_collection w' = coll_delete_one (VOid oid) (todos_collection w) ∧
    todos_deleted (REGISTRY w') = S (todos_deleted (REGISTRY w)).
Proof.
  cbn [app]. intros Happ Hst.
  destruct (ObjectId_of_cases todo_id) as [[Hm _]|[_ [oid Hid]]].
  { rewrite delete_todo_malformed in Happ by done. by injection Happ as <- <-. }
  rewrite (delete_todo_run _ _ _ _ Hid) in Happ. cbv zeta in Happ.
  destruct (fault env _); [by injection Happ as <- <-|].
  destruct (coll_find_one _ _) as [d|] eqn:Hfind; [|by injection Happ as <- <-].
  injection Happ as <- <-. exists oid, d.
  rewrite update_active_todos_count_run.
  cbn [todos_collection REGISTRY with_registry with_collection log_call snd].
  split; [exact Hid|]. split; [exact Hfind|]. split; [reflexivity|].
  by destruct (fault env _).
Qed.

(** X11.  In a collection without duplicate identifiers, a successful DELETE
    removes one document, after which its identifier is not found;
    todos_deleted is incremented and look-ups of other identifiers are
    unchanged. *)
Theorem delete_removes_the_item env w todo_id resp w' :
  app (DELETE_todos todo_id) env w = (resp, w') →
  status_code resp = 200 →
  NoDup (ids (todos_collection w)) →
  ∃ oid,
    ObjectId_of todo_id = inr oid ∧
    is_Some (coll_find_one (VOid oid) (todos_collection w)) ∧
    coll_find_one (VOid oid) (todos_collection w') = None ∧
    S (length (todos_collection w')) = length (todos_collection w) ∧
    todos_deleted (REGISTRY w') = S (todos_deleted (REGISTRY w)) ∧
    ∀ v, v ≠ VOid oid →
         coll_find_one v (todos_collection w') = coll_find_one v (todos_collection w).
Proof.
  intros Happ Hst Hnd.
  destruct (delete_success _ _ _ _ _ Happ Hst)
    as (oid & deleted & Hid & Hfind & -> & Hn).
  exists oid. split; [exact Hid|]. split; [by eexists|].
  split; [by apply coll_find_one_delete_same|].
  split; [by eapply coll_delete_one_length|].
  split; [exact Hn|].
  intros v Hv. by apply coll_find_one_delete_other.
Qed.

Lemma delete_removes_the_item_witness :
  let out := app (DELETE_todos Sample.id1) Sample.env Sample.two_todos in
  status_code out.1 = 200 ∧
  NoDup (ids (todos_collection Sample.two_todos)) ∧
  ∃ oid,
    ObjectId_of Sample.id1 = inr oid ∧
    is_Some (coll_find_one (VOid oid) (todos_collection Sample.two_todos)) ∧
    coll_find_one (VOid oid) (todos_collection out.2) = None ∧
    S (length (todos_collection out.2)) = length (todos_collection Sample.two_todos) ∧
    todos_deleted (REGISTRY out.2) = S (todos_deleted (REGISTRY Sample.two_todos)) ∧
    ∀ v, v ≠ VOid oid →
         coll_find_one v (todos_collection out.2)
         = coll_find_one v (todos_collection Sample.two_todos).
Proof.
  cbv zeta.
  assert (NoDup (ids (todos_collection Sample.two_todos))) as H.
  { apply (bool_decide_unpack _). vm_compute. exact I. }
  split; [reflexivity|]. split; [exact H|].
  exact (delete_removes_the_item Sample.env Sample.two_todos Sample.id1 _ _
           (surjective_pairing _) eq_refl H).
Defined.

(** X12.  In a collection without duplicate identifiers, repeating a successful
    DELETE, with the delete call not raising, is answered 400 "Invalid todo
    ID" and changes the collection no further. *)
Theorem second_delete_is_refused env w todo_id resp w' :
  app (DELETE_todos todo_id) env w = (resp, w') →
  status_code resp = 200 →
  NoDup (ids (todos_collection w)) →
  fault env (length (calls w')) = false →
  (app (DELETE_todos todo_id) env w').1 = http_error 400 "Invalid todo ID" ∧
  todos_collection (app (DELETE_todos todo_id) env w').2 = todos_collection w'.
Proof.
  intros Happ Hst Hnd Hf.
  destruct (delete_success _ _ _ _ _ Happ Hst)
    as (oid & deleted & Hid & _ & Hcoll & _).
  assert (coll_find_one (VOid oid) (todos_collection w') = None) as Hgone.
  { rewrite Hcoll. by apply coll_find_one_delete_same. }
  cbn [app]. rewrite (delete_todo_run _ _ _ _ Hid). cbv zeta.
  rewrite Hf, Hgone. split; [reflexivity|].
  cbn [snd todos_collection with_collection]. by apply coll_delete_one_absent.
Qed.

Lemma second_delete_is_refused_witness :
  let out := app (DELETE_todos Sample.id1) Sample.env Sample.two_todos in
  let again := app (DELETE_todos Sample.id1) Sample.env out.2 in
  status_code out.1 = 200 ∧
  NoDup (ids (todos_collection Sample.two_todos)) ∧
  fault Sample.env (length (calls out.2)) = false ∧
  again.1 = http_error 400 "Invalid todo ID" ∧
  todos_collection again.2 = todos_collection out.2.
Proof.
  cbv zeta.
  assert (NoDup (ids (todos_collection Sample.two_todos))) as H.
  { apply (bool_decide_unpack _). vm_compute. exact I. }
  split; [reflexivity|]. split; [exact H|]. split; [reflexivity|].
  exact (second_delete_is_refused Sample.env Sample.two_todos Sample.id1 _ _
           (surjective_pairing _) eq_refl H eq_refl).
Defined.

(** ** PUT *)

Lemma updated_field_lookup u existing k :
  (without_none (TodoUpdate.dict u) ∪ existing) !! k = updated_field u existing k.
Proof.
  unfold updated_field. rewrite lookup_union, update_dict_lookup.
  repeat case_bool_decide.
  - by destruct (TodoUpdate.title u), (existing !! k).
  - by destruct (TodoUpdate.description u), (existing !! k).
  - by destruct (TodoUpdate.completed u), (existing !! k).
  - by destruct (existing !! k).
Qed.

Lemma coll_find_one_update_other v v' upd c :
  upd !! "_id" = None → v' ≠ v →
  coll_find_one v' (coll_update_one v upd c) = coll_find_one v' c.
Proof.
  intros Hupd Hne. induction c as [|d c IH]; [done|].
  cbn [coll_update_one coll_find_one].
  destruct (has_id v d) eqn:Hd; cbn [coll_find_one]; [|by rewrite IH].
  rewrite has_id_union by done.
  unfold has_id in *. apply bool_decide_eq_true in Hd.
  rewrite bool_decide_eq_false_2; [done|]. congruence.
Qed.

(** X13.  After a successful PUT the item holds, for title, description and
    completed, the value of the body where the body supplies one and its
    former value otherwise; every other field, the number of documents and
    the look-ups of other identifiers are unchanged, and the answer is the
    serialisation of the stored item. *)
Theorem update_changes_supplied_fields_only env w todo_id u resp w' :
  app (PUT_todos todo_id u) env w = (resp, w') →
  status_code resp = 200 →
  ∃ oid existing updated j,
    ObjectId_of todo_id = inr oid ∧
    coll_find_one (VOid oid) (todos_collection w) = Some existing ∧
    coll_find_one (VOid oid) (todos_collection w') = Some updated ∧
    (∀ k, updated !! k = updated_field u existing k) ∧
    serialize_todo (Some updated) = inr j ∧
    body resp = JObject j ∧
    length (todos_collection w') = length (todos_collection w) ∧
    ∀ v, v ≠ VOid oid →
         coll_find_one v (todos_collection w') = coll_find_one v (todos_collection w).
Proof.
  cbn [app]. intros Happ Hst.
  destruct (ObjectId_of_cases todo_id) as [[Hm _]|[_ [oid Hid]]].
  { rewrite update_todo_malformed in Happ by done. by injection Happ as <- <-. }
  rewrite (update_todo_run _ _ _ _ _ Hid) in Happ. cbv zeta in Happ.
  destruct (fault env _); [by injection Happ as <- <-|].
  destruct (coll_find_one _ _) as [existing|] eqn:Hfind;
    [|by injection Happ as <- <-].
  exists oid, existing.
  destruct (bool_decide _) eqn:Hempty.
  - apply bool_decide_eq_true in Hempty.
    destruct (serialize_todo _) as [|j] eqn:Hj; injection Happ as <- <-; [done|].
    exists existing, j.
    cbn [body ok todos_collection log_call].
    split; [exact Hid|]. split; [exact Hfind|]. split; [exact Hfind|].
    split.
    { intros k. by rewrite <- updated_field_lookup, Hempty, (left_id_L ∅ (∪)). }
    split; [exact Hj|]. split; [reflexivity|]. split; [reflexivity|].
    intros v _. reflexivity.
  - destruct (fault env _); [by injection Happ as <- <-|].
    destruct (fault env _); [by injection Happ as <- <-|].
    rewrite update_active_todos_count_run in Happ.
    destruct (serialize_todo _) as [|j] eqn:Hj; injection Happ as <- <-; [done|].
    exists (without_none (TodoUpdate.dict u) ∪ existing), j.
    assert (without_none (TodoUpdate.dict u) !! "_id" = None) as Hnoid.
    { rewrite update_dict_lookup. by repeat case_bool_decide. }
    assert (∀ c,
      todos_collection
        (if truthy (dict_get (without_none (TodoUpdate.dict u)) "completed" VNone)
            && negb (prior_completed existing)
         then with_registry (inc_todos_completed (REGISTRY w))
                (log_call (FindOne (VOid oid)) w)
         else log_call (FindOne (VOid oid)) w) = c ↔ todos_collection w = c) as Hc.
    { intros c. by destruct (_ && _). }
    cbn [body ok todos_collection with_registry with_collection log_call snd] in *.
    assert (todos_collection
        (if truthy (dict_get (without_none (TodoUpdate.dict u)) "completed" VNone)
            && negb (prior_completed existing)
         then with_registry (inc_todos_completed (REGISTRY w))
                (log_call (FindOne (VOid oid)) w)
         else log_call (FindOne (VOid oid)) w) = todos_collection w) as Hcoll
      by (by apply Hc).
    rewrite Hcoll in *. clear Hc Hcoll.
    rewrite coll_find_one_update, Hfind in Hj |- * by done.
    split; [exact Hid|]. split; [reflexivity|]. split; [reflexivity|].
    split; [apply updated_field_lookup|]. split; [exact Hj|].
    split; [reflexivity|]. split; [apply coll_update_one_length|].
    intros v Hv. by apply coll_find_one_update_other.
Qed.

Lemma update_changes_supplied_fields_only_witness :
  let out := app (PUT_todos Sample.id2 Sample.rename) Sample.env Sample.two_todos in
  status_code out.1 = 200 ∧
  ∃ oid existing updated j,
    ObjectId_of Sample.id2 = inr oid ∧
    coll_find_one (VOid oid) (todos_collection Sample.two_todos) = Some existing ∧
    coll_find_one (VOid oid) (todos_collection out.2) = Some updated ∧
    (∀ k, updated !! k = updated_field Sample.rename existing k) ∧
    serialize_todo (Some updated) = inr j ∧
    body out.1 = JObject j ∧
    length (todos_collection out.2) = length (todos_collection Sample.two_todos) ∧
    ∀ v, v ≠ VOid oid →
         coll_find_one v (todos_collection out.2)
         = coll_find_one v (todos_collection Sample.two_todos).
Proof.
  cbv zeta. split; [reflexivity|].
  exact (update_changes_supplied_fields_only Sample.env Sample.two_todos Sample.id2
           Sample.rename _ _ (surjective_pairing _) eq_refl).
Defined.

Lemma union_twice (upd d : dict) : upd ∪ (upd ∪ d) = upd ∪ d.
Proof. by rewrite (assoc_L (∪)), (idemp_L (∪)). Qed.

Lemma coll_update_one_twice v upd c :
  upd !! "_id" = None →
  coll_update_one v upd (coll_update_one v upd c) = coll_update_one v upd c.
Proof.
  intros Hupd. induction c as [|d c IH]; [done|]. cbn [coll_update_one].
  destruct (has_id v d) eqn:Hd; cbn [coll_update_one].
  - by rewrite has_id_union, Hd, union_twice.
  - by rewrite Hd, IH.
Qed.

Lemma put_answer env w todo_id u resp w' :
  app (PUT_todos todo_id u) env w = (resp, w') →
  status_code resp = 200 →
  ∃ oid j,
    ObjectId_of todo_id = inr oid ∧
    serialize_todo (coll_find_one (VOid oid) (todos_collection w')) = inr j ∧
    body resp = JObject j.
Proof.
  cbn [app]. intros Happ Hst.
  destruct (ObjectId_of_cases todo_id) as [[Hm _]|[_ [oid Hid]]].
  { rewrite update_todo_malformed in Happ by done. by injection Happ as <- <-. }
  rewrite (update_todo_run _ _ _ _ _ Hid) in Happ. cbv zeta in Happ.
  destruct (fault env _); [by injection Happ as <- <-|].
  destruct (coll_find_one _ _) as [existing|] eqn:Hfind;
    [|by injection Happ as <- <-].
  exists oid. destruct (bool_decide _).
  - destruct (serialize_todo _) as [|j] eqn:Hj; injection Happ as <- <-; [done|].
    exists j. cbn [todos_collection log_call body ok]. rewrite Hfind.
    split; [exact Hid|]. split; [exact Hj|reflexivity].
  - destruct (fault env _); [by injection Happ as <- <-|].
    destruct (fault env _); [by injection Happ as <- <-|].
    rewrite update_active_todos_count_run in Happ.
    destruct (serialize_todo _) as [|j] eqn:Hj; injection Happ as <- <-; [done|].
    exists j. split; [exact Hid|]. split; [exact Hj|reflexivity].
Qed.

(** X14.  Repeating a successful PUT with the same body, when it succeeds again,
    leaves the collection as the first left it and returns the same body. *)
Theorem repeated_update_changes_nothing env w todo_id u resp w1 resp2 w2 :
  app (PUT_todos todo_id u) env w = (resp, w1) →
  status_code resp = 200 →
  app (PUT_todos todo_id u) env w1 = (resp2, w2) →
  status_code resp2 = 200 →
  todos_collection w2 = todos_collection w1 ∧ body resp2 = body resp.
Proof.
  intros Happ1 Hst1 Happ2 Hst2.
  destruct (put_success _ _ _ _ _ _ Happ1 Hst1) as (oid & ex1 & Hid & _ & _ & Hc1).
  destruct (put_success _ _ _ _ _ _ Happ2 Hst2) as (oid' & ex2 & Hid' & _ & _ & Hc2).
  rewrite Hid in Hid'. injection Hid' as <-.
  destruct (put_answer _ _ _ _ _ _ Happ1 Hst1) as (o1 & j1 & Ho1 & Hj1 & Hb1).
  destruct (put_answer _ _ _ _ _ _ Happ2 Hst2) as (o2 & j2 & Ho2 & Hj2 & Hb2).
  rewrite Hid in Ho1, Ho2. injection Ho1 as <-. injection Ho2 as <-.
  assert (todos_collection w2 = todos_collection w1) as Hsame.
  { rewrite Hc2, Hc1. destruct (supplies_fields u); [|done].
    apply coll_update_one_twice.
    rewrite update_dict_lookup. by repeat case_bool_decide. }
  split; [exact Hsame|].
  rewrite Hsame, Hj1 in Hj2. congruence.
Qed.

Lemma repeated_update_changes_nothing_witness :
  let first := app (PUT_todos Sample.id2 Sample.rename) Sample.env Sample.two_todos in
  let second := app (PUT_todos Sample.id2 Sample.rename) Sample.env first.2 in
  status_code first.1 = 200 ∧
  status_code second.1 = 200 ∧
  todos_collection second.2 = todos_collection first.2 ∧
  body second.1 = body first.1.
Proof.
  cbv zeta. split; [reflexivity|]. split; [reflexivity|].
  exact (repeated_update_changes_nothing Sample.env Sample.two_todos Sample.id2
           Sample.rename _ _ _ _ (surjective_pairing _) eq_refl
           (surjective_pairing _) eq_refl).
Defined.

(** ** A 500 after the write *)

(** X15.  When the insert succeeds and the read-back raises, POST /todos answers
    500 "Failed to create todo" although the document has been inserted and
    can be found; todos_created and db_errors{operation=create} are both
    incremented. *)
Theorem created_although_500 env w todo :
  let n := length (calls w) in
  let out := app (POST_todos todo) env w in
  fault env n = false →
  coll_find_one (VOid (new_oid env n)) (todos_collection w) = None →
  fault env (S (S n)) = true →
  out.1 = http_error 500 "Failed to create todo" ∧
  length (todos_collection out.2) = S (length (todos_collection w)) ∧
  coll_find_one (VOid (new_oid env n)) (todos_collection out.2)
    = Some (<["_id" := VOid (new_oid env n)]>
              (<["completed" := VBool false]> (TodoCreate.dict todo))) ∧
  todos_created (REGISTRY out.2) = S (todos_created (REGISTRY w)) ∧
  db_errors_of "create" (REGISTRY out.2) = S (db_errors_of "create" (REGISTRY w)).
Proof.
  cbv zeta. intros F0 Hnew F2. cbn [app]. rewrite create_todo_run. cbv zeta.
  rewrite F0, Hnew, update_active_todos_count_run.
  cbn [calls with_registry with_collection log_call snd]. rewrite !length_snoc, F2.
  cbn [fst snd todos_collection REGISTRY with_registry with_collection log_call].
  split; [reflexivity|]. split; [rewrite length_snoc; reflexivity|].
  split; [by apply coll_find_one_app_new, lookup_insert_eq|].
  destruct (fault env (S (length (calls w)))); (split; [reflexivity|]);
    rewrite ?db_errors_of_inc; reflexivity.
Qed.

Lemma created_although_500_witness :
  let env := Sample.failing 4 in
  let w := Sample.started in
  let n := length (calls w) in
  let out := app (POST_todos Sample.todo1) env w in
  fault env n = false ∧
  coll_find_one (VOid (new_oid env n)) (todos_collection w) = None ∧
  fault env (S (S n)) = true ∧
  out.1 = http_error 500 "Failed to create todo" ∧
  length (todos_collection out.2) = S (length (todos_collection w)) ∧
  coll_find_one (VOid (new_oid env n)) (todos_collection out.2)
    = Some (<["_id" := VOid (new_oid env n)]>
              (<["completed" := VBool false]> (TodoCreate.dict Sample.todo1))) ∧
  todos_created (REGISTRY out.2) = S (todos_created (REGISTRY w)) ∧
  db_errors_of "create" (REGISTRY out.2) = S (db_errors_of "create" (REGISTRY w)).
Proof.
  cbv zeta. do 3 (split; [reflexivity|]).
  exact (created_although_500 (Sample.failing 4) Sample.started Sample.todo1
           eq_refl eq_refl eq_refl).
Defined.

(** X16.  When the update succeeds and the read-back raises, PUT /todos/{id}
    answers 500 "Failed to update todo" although the item has been changed;
    the gauge is not recounted and db_errors{operation=update} is
    incremented. *)
Theorem updated_although_500 env w todo_id oid u existing :
  let n := length (calls w) in
  let out := app (PUT_todos todo_id u) env w in
  ObjectId_of todo_id = inr oid →
  coll_find_one (VOid oid) (todos_collection w) = Some existing →
  supplies_fields u = true →
  fault env n = false →
  fault env (S n) = false →
  fault env (S (S n)) = true →
  out.1 = http_error 500 "Failed to update todo" ∧
  coll_find_one (VOid oid) (todos_collection out.2)
    = Some (without_none (TodoUpdate.dict u) ∪ existing) ∧
  active_todos (REGISTRY out.2) = active_todos (REGISTRY w) ∧
  db_errors_of "update" (REGISTRY out.2) = S (db_errors_of "update" (REGISTRY w)).
Proof.
  cbv zeta. intros Hid Hfind Hsup F0 F1 F2. cbn [app].
  rewrite (update_todo_run _ _ _ _ _ Hid). cbv zeta.
  rewrite F0, Hfind, update_dict_empty_b, Hsup. cbn [negb].
  destruct (_ && _);
    cbn [calls todos_collection with_registry with_collection log_call];
    rewrite !length_snoc, F1, F2;
    cbn [fst snd todos_collection REGISTRY with_registry with_collection log_call].
  all: split; [reflexivity|].
  all: rewrite coll_find_one_update, Hfind
         by (rewrite update_dict_lookup; by repeat case_bool_decide).
  all: split; [reflexivity|]. all: split; [reflexivity|].
  all: rewrite db_errors_of_inc; reflexivity.
Qed.

Lemma updated_although_500_witness :
  let env := Sample.failing 10 in
  let w := Sample.two_todos in
  let n := length (calls w) in
  let out := app (PUT_todos Sample.id1 Sample.rename) env w in
  ∃ existing,
    ObjectId_of Sample.id1 = inr (Oid Sample.id1) ∧
    coll_find_one (VOid (Oid Sample.id1)) (todos_collection w) = Some existing ∧
    supplies_fields Sample.rename = true ∧
    fault env n = false ∧
    fault env (S n) = false ∧
    fault env (S (S n)) = true ∧
    out.1 = http_error 500 "Failed to update todo" ∧
    coll_find_one (VOid (Oid Sample.id1)) (todos_collection out.2)
      = Some (without_none (TodoUpdate.dict Sample.rename) ∪ existing) ∧
    active_todos (REGISTRY out.2) = active_todos (REGISTRY w) ∧
    db_errors_of "update" (REGISTRY out.2) = S (db_errors_of "update" (REGISTRY w)).
Proof.
  cbv zeta. eexists. split; [reflexivity|]. split; [reflexivity|].
  do 4 (split; [reflexivity|]).
  exact (updated_although_500 (Sample.failing 10) Sample.two_todos Sample.id1
           (Oid Sample.id1) Sample.rename _ eq_refl eq_refl eq_refl eq_refl
           eq_refl eq_refl).
Defined.

(** ** Routes that only read *)

(** X17.  The GET routes never change the collection; they leave the registry as
    it was, except that a failed listing adds one to
    db_errors{operation=find}.  GET /ready answers 503 when the ping raises
    and 200 otherwise. *)
Theorem reads_change_no_document env r w :
  is_mutation r = false →
  let out := app r env w in
  todos_collection out.2 = todos_collection w ∧
  (REGISTRY out.2 = REGISTRY w ∨
   r = GET_todos ∧ out.1 = failure_answer r ∧
   REGISTRY out.2 = inc_db_errors "find" (REGISTRY w)) ∧
  (r = GET_ready →
   status_code out.1 = if fault env (length (calls w)) then 503 else 200).
Proof.
  intros Hr. cbv zeta. destruct r; try discriminate Hr; run_route.
  all: split; [reflexivity|]. all: split; [|first [discriminate|reflexivity]].
  all: first [left; reflexivity | right; repeat split; reflexivity].
Qed.

Lemma reads_change_no_document_witness :
  let out := app GET_ready (Sample.failing 8) Sample.two_todos in
  is_mutation GET_ready = false ∧
  todos_collection out.2 = todos_collection Sample.two_todos ∧
  (REGISTRY out.2 = REGISTRY Sample.two_todos ∨
   GET_ready = GET_todos ∧ out.1 = failure_answer GET_ready ∧
   REGISTRY out.2 = inc_db_errors "find" (REGISTRY Sample.two_todos)) ∧
  (GET_ready = GET_ready →
   status_code out.1
   = if fault (Sample.failing 8) (length (calls Sample.two_todos)) then 503 else 200).
Proof.
  cbv zeta. split; [reflexivity|].
  exact (reads_change_no_document (Sample.failing 8) GET_ready Sample.two_todos
           eq_refl).
Defined.

(** ** Start-up and shut-down *)

(** X18.  Start-up never changes the collection.  When the ping raises it fails
    with that error, after setting the connectivity gauge to 0 and without
    counting.  Otherwise it succeeds with the connectivity gauge at 1; a
    count that raises is tolerated (the gauge keeps its value,
    db_errors{operation=count} is incremented), and a count that succeeds
    makes the gauge agree with the collection. *)
Theorem startup_outcome env w :
  let n := length (calls w) in
  let out := lifespan_startup env w in
  todos_collection out.2 = todos_collection w ∧
  if fault env n then
    out.1 = inl (PyMongoError "network") ∧
    mongo_connections (REGISTRY out.2) = 0 ∧
    active_todos (REGISTRY out.2) = active_todos (REGISTRY w) ∧
    calls out.2 = calls w ++ [Ping]
  else
    out.1 = inr tt ∧
    mongo_connections (REGISTRY out.2) = 1 ∧
    calls out.2 = calls w ++ [Ping; CountDocuments] ∧
    if fault env (S n) then
      active_todos (REGISTRY out.2) = active_todos (REGISTRY w) ∧
      db_errors_of "count" (REGISTRY out.2) = S (db_errors_of "count" (REGISTRY w))
    else gauge_agrees out.2.
Proof.
  cbv zeta. rewrite lifespan_startup_run.
  destruct (fault env (length (calls w))) eqn:F0.
  { repeat split; reflexivity. }
  rewrite update_active_todos_count_run.
  cbn [fst snd calls todos_collection REGISTRY with_registry log_call].
  rewrite length_snoc.
  split; [reflexivity|]. split; [reflexivity|].
  destruct (fault env (S (length (calls w)))).
  - split; [reflexivity|]. split; [by rewrite <- app_assoc|].
    split; [reflexivity|]. rewrite db_errors_of_inc. reflexivity.
  - split; [reflexivity|]. split; [by rewrite <- app_assoc|]. reflexivity.
Qed.

(** ** The timing wrapper *)

(** X19.  A handler wrapped by track_request_time returns or raises exactly what
    the handler does, with the same collection and storage calls, and
    records one observation, the time between the two clock reads, under the
    label 200 when the handler returns and 500 when it raises, whatever
    status_code the decorator was given; other children of the histogram are
    unchanged. *)
Theorem timing_wrapper_is_transparent {A} (method endpoint : string) (code : nat)
    (func : M A) env w :
  let inner := func env (tick w) in
  let out := track_request_time method endpoint code func env w in
  let labels :=
    [method; endpoint; match inner.1 with inr _ => "200" | inl _ => "500" end] in
  out.1 = inner.1 ∧
  todos_collection out.2 = todos_collection inner.2 ∧
  calls out.2 = calls inner.2 ∧
  http_request_duration (REGISTRY out.2) !! labels
    = Some (default [] (http_request_duration (REGISTRY inner.2) !! labels)
            ++ [(clock env (clock_reads inner.2) - clock env (clock_reads w))%Q]) ∧
  ∀ other, other ≠ labels →
    http_request_duration (REGISTRY out.2) !! other
    = http_request_duration (REGISTRY inner.2) !! other.
Proof.
  cbv zeta. unfold track_request_time, time_time. unfold_monad.
  destruct (func env (tick w)) as [[e|a] w1];
    cbn [fst snd todos_collection calls REGISTRY clock_reads with_registry tick
         observe_duration http_request_duration].
  all: split; [reflexivity|]. all: split; [reflexivity|].
  all: split; [reflexivity|]. all: split; [apply lookup_insert_eq|].
  all: intros other Hne; by apply lookup_insert_ne.
Qed.

(** ** How the gauge moves *)

Lemma coll_count_active_app c d :
  coll_count_active (c ++ [d]) = coll_count_active c + active_of d.
Proof.
  unfold coll_count_active, active_of. rewrite List.filter_app, length_app.
  cbn [List.filter]. by destruct (is_active d).
Qed.

Lemma coll_count_active_update v upd c d :
  coll_find_one v c = Some d →
  coll_count_active (coll_update_one v upd c) + active_of d
  = coll_count_active c + active_of (upd ∪ d).
Proof.
  unfold coll_count_active, active_of.
  induction c as [|d' c IH]; [done|]. cbn [coll_find_one coll_update_one].
  destruct (has_id v d').
  - intros [= ->]. cbn [List.filter].
    destruct (is_active (upd ∪ d)), (is_active d); cbn [length]; lia.
  - intros H. specialize (IH H). cbn [List.filter].
    destruct (is_active d'); cbn [length]; lia.
Qed.

Lemma coll_count_active_delete v c d :
  coll_find_one v c = Some d →
  coll_count_active (coll_delete_one v c) + active_of d = coll_count_active c.
Proof.
  unfold coll_count_active, active_of.
  induction c as [|d' c IH]; [done|]. cbn [coll_find_one coll_delete_one].
  destruct (has_id v d').
  - intros [= ->]. cbn [List.filter]. destruct (is_active d); cbn [length]; lia.
  - intros H. specialize (IH H). cbn [List.filter].
    destruct (is_active d'); cbn [length]; lia.
Qed.

Lemma created_doc_active id (d : dict) :
  active_of (<["_id" := id]> (<["completed" := VBool false]> d)) = 1.
Proof.
  unfold active_of, is_active. rewrite bool_decide_eq_true_2; [done|].
  by rewrite lookup_insert_ne, lookup_insert_eq.
Qed.

(** X20.  When no storage call raises, a successful POST leaves the gauge one
    above the former number of active documents; a successful PUT with
    fields or DELETE moves it by the difference between the activity of the
    item after and before. *)
Theorem gauge_moves_with_the_item env w r resp w' :
  storage_succeeds env →
  app r env w = (resp, w') →
  status_code resp = success_status r →
  match r with
  | POST_todos _ =>
      active_todos (REGISTRY w') = S (coll_count_active (todos_collection w))
  | PUT_todos todo_id u =>
      supplies_fields u = true →
      ∃ oid existing,
        ObjectId_of todo_id = inr oid ∧
        coll_find_one (VOid oid) (todos_collection w) = Some existing ∧
        active_todos (REGISTRY w') + active_of existing
        = coll_count_active (todos_collection w)
          + active_of (without_none (TodoUpdate.dict u) ∪ existing)
  | DELETE_todos todo_id =>
      ∃ oid deleted,
        ObjectId_of todo_id = inr oid ∧
        coll_find_one (VOid oid) (todos_collection w) = Some deleted ∧
        active_todos (REGISTRY w') + active_of deleted
        = coll_count_active (todos_collection w)
  | _ => True
  end.
Proof.
  intros Hs Happ Hst.
  destruct r as [| | | | |todo|todo_id u|todo_id]; try exact I;
    cbn [app success_status] in *.
  - rewrite create_todo_run in Happ. cbv zeta in Happ.
    rewrite !Hs, update_active_todos_count_run, Hs in Happ.
    destruct (coll_find_one _ _); injection Happ as <- <-; [done|].
    cbn [snd REGISTRY todos_collection with_registry with_collection log_call
         active_todos set_active_todos].
    rewrite coll_count_active_app, created_doc_active. apply Nat.add_1_r.
  - intros Hsup.
    destruct (ObjectId_of_cases todo_id) as [[Hm _]|[_ [oid Hid]]].
    { rewrite update_todo_malformed in Happ by done. by injection Happ as <- <-. }
    rewrite (update_todo_run _ _ _ _ _ Hid) in Happ. cbv zeta in Happ.
    rewrite !Hs in Happ.
    destruct (coll_find_one _ _) as [existing|] eqn:Hfind;
      [|by injection Happ as <- <-].
    rewrite update_dict_empty_b, Hsup in Happ. cbn [negb] in Happ.
    rewrite !Hs, update_active_todos_count_run, Hs in Happ.
    exists oid, existing. split; [exact Hid|]. split; [exact Hfind|].
    destruct (serialize_todo _); injection Happ as <- <-; [done|].
    destruct (_ && _);
      cbn [snd REGISTRY todos_collection with_registry with_collection log_call
           active_todos set_active_todos];
      by apply coll_count_active_update.
  - destruct (ObjectId_of_cases todo_id) as [[Hm _]|[_ [oid Hid]]].
    { rewrite delete_todo_malformed in Happ by done. by injection Happ as <- <-. }
    rewrite (delete_todo_run _ _ _ _ Hid) in Happ. cbv zeta in Happ.
    rewrite !Hs, update_active_todos_count_run, Hs in Happ.
    destruct (coll_find_one _ _) as [deleted|] eqn:Hfind;
      injection Happ as <- <-; [|done].
    exists oid, deleted. split; [exact Hid|]. split; [exact Hfind|].
    cbn [snd REGISTRY todos_collection with_registry with_collection log_call
         active_todos set_active_todos].
    by apply coll_count_active_delete.
Qed.

Lemma gauge_moves_with_the_item_witness :
  let r := PUT_todos Sample.id1 Sample.complete in
  let out := app r Sample.env Sample.two_todos in
  storage_succeeds Sample.env ∧
  status_code out.1 = success_status r ∧
  supplies_fields Sample.complete = true ∧
  ∃ oid existing,
    ObjectId_of Sample.id1 = inr oid ∧
    coll_find_one (VOid oid) (todos_collection Sample.two_todos) = Some existing ∧
    active_todos (REGISTRY out.2) + active_of existing
    = coll_count_active (todos_collection Sample.two_todos)
      + active_of (without_none (TodoUpdate.dict Sample.complete) ∪ existing).
Proof.
  cbv zeta. split; [intros n; reflexivity|]. split; [reflexivity|].
  split; [reflexivity|].
  exact (gauge_moves_with_the_item Sample.env Sample.two_todos
           (PUT_todos Sample.id1 Sample.complete) _ _
           (λ n, eq_refl) (surjective_pairing _) eq_refl eq_refl).
Defined.

(** ** Errors in the exposition *)

Lemma concat_cons_cons (x y : string) (l : list string) :
  String.concat "" (x :: y :: l) = x +:+ "" +:+ String.concat "" (y :: l).
Proof. reflexivity. Qed.

Lemma contains_concat_elem {A} (p : string) (f : A → string) (x : A) (l : list A) :
  x ∈ l → contains p (f x) = true →
  contains p (String.concat "" (map f l)) = true.
Proof.
  intros Hx Hp. induction l as [|y l IH]; [by apply elem_of_nil in Hx|].
  destruct l as [|z l].
  - apply elem_of_cons in Hx as [->|Hx]; [done|by apply elem_of_nil in Hx].
  - cbn [map] in *. rewrite concat_cons_cons.
    apply elem_of_cons in Hx as [->|Hx].
    + by apply contains_app_earlier.
    + apply contains_app_later, (contains_app_later _ ""). by apply IH.
Qed.

Lemma contains_refl p : contains p p = true.
Proof. destruct p; [done|]. cbn [contains starts_with].
  rewrite Ascii.eqb_refl.
  assert (∀ q, starts_with q q = true) as ->; [|done].
  induction q as [|b q IH]; [done|]. cbn. by rewrite Ascii.eqb_refl.
Qed.

Lemma generate_latest_shows_db_error r op n :
  db_errors r !! op = Some n →
  contains (db_errors_sample (op, n)) (generate_latest r) = true.
Proof.
  intros H. unfold generate_latest.
  apply contains_app_later.
  do 18 apply contains_app_later.
  apply contains_app_earlier.
  apply (contains_concat_elem _ _ (op, n)); [|apply contains_refl].
  by apply elem_of_map_to_list.
Qed.

Lemma failure_is_recorded env r w op :
  operation_label r = Some op →
  (app r env w).1 = failure_answer r →
  db_errors (REGISTRY (app r env w).2) !! op
  = Some (S (db_errors_of op (REGISTRY w))).
Proof.
  intros Hop. destruct r; try discriminate Hop; injection Hop as <-; run_route.
  all: cbn [failure_answer]; intros Hfail; try discriminate Hfail; clear Hfail.
  all: unfold inc_db_errors at 1; cbn [db_errors]; rewrite lookup_insert_eq.
  all: rewrite ?db_errors_of_inc, ?db_errors_of_set_active,
         ?db_errors_of_created, ?db_errors_of_deleted, ?db_errors_of_completed.
  all: reflexivity.
Qed.

(** The text of a count, below and from a million on, up to the largest
    count a float reaches by steps of one. *)
Example sample_values :
  map (λ n, floatToGoString (0 <? n)%N (repr_whole n))
    [0; 1; 999999; 1000000; 1000001; 1200000; 10000000; 12345678900;
     9007199254740992]%N
  = ["0.0"; "1.0"; "999999.0"; "1e+06"; "1.000001e+06"; "1.2e+06"; "1e+07";
     "1.23456789e+010"; "9.007199254740992e+015"].
Proof. vm_compute. reflexivity. Qed.

(** X21.  After a todos route has answered with its 500 "Failed to ..." message,
    the GET /metrics body contains the sample line
    db_errors_total{operation="<label>"} with the incremented value, written
    as the registry writes a float (1e+06 for a million), as long as the
    counter was below 2^53: up to there the float that holds it counts
    exactly. *)
Theorem recorded_errors_are_exposed env r w op :
  operation_label r = Some op →
  (app r env w).1 = failure_answer r →
  (N.of_nat (db_errors_of op (REGISTRY w)) < 2 ^ 53)%N →
  ∃ text,
    body (app GET_metrics env (app r env w).2).1 = PlainText text ∧
    contains (db_errors_sample (op, S (db_errors_of op (REGISTRY w)))) text = true.
Proof.
  intros Hop Hfail _. eexists. split; [reflexivity|].
  apply generate_latest_shows_db_error.
  by apply failure_is_recorded.
Qed.

Lemma recorded_errors_are_exposed_witness :
  let env := Sample.failing 8 in
  let out := app GET_todos env Sample.two_todos in
  operation_label GET_todos = Some "find" ∧
  out.1 = failure_answer GET_todos ∧
  (N.of_nat (db_errors_of "find" (REGISTRY Sample.two_todos)) < 2 ^ 53)%N ∧
  ∃ text,
    body (app GET_metrics env out.2).1 = PlainText text ∧
    contains
      (db_errors_sample ("find", S (db_errors_of "find" (REGISTRY Sample.two_todos))))
      text = true.
Proof.
  cbv zeta. split; [reflexivity|]. split; [reflexivity|]. split; [reflexivity|].
  exact (recorded_errors_are_exposed (Sample.failing 8) GET_todos Sample.two_todos
           "find" eq_refl eq_refl eq_refl).
Defined.
